(** * osumod: the request-admission handler of [server/api.js]

    A shallow embedding of the [POST /api/request] handler and of the
    helpers it uses ([round], [formatTime], [isBN]), followed by the
    properties of the admission pipeline.

    Conventions of the embedding:
    - a JavaScript number is the exact value of a finite binary64 double,
      a rational ([Q]), or, where the code only ever holds an integer (ids,
      millisecond timestamps, counts), an integer ([Z]); every product,
      quotient and difference of [round] and of the cooldown block is
      rounded to binary64 as the machine does (module [F64]); [NaN], the
      infinities, overflow and the sign of zero are not modelled, and
      [parseInt]/[parseFloat] are taken as already applied to the fields
      of the lookup result;
    - the handler is asynchronous but strictly sequential: it is written
      in a state-and-exception monad over the two collections it touches;
    - the external lookup, the clock, and the success of [save] and of the
      count and the write of the settings that follow it are inputs of the
      handler (record [Env]); the two reads that come before the first
      write are taken to succeed. *)

From Stdlib Require Import ZArith QArith Qround Qabs Qpower Qreduction.
From Stdlib Require Import String Ascii List Bool Lia.
From Stdlib Require Import Sorting.Sorted Sorting.Permutation DecimalString DecimalZ.
Import ListNotations.

Local Open Scope Z_scope.
Local Open Scope Q_scope.
Local Open Scope string_scope.
Local Open Scope list_scope.

(** ** Binary64 arithmetic

    A finite double is the rational it denotes. An arithmetic result is the
    exact result rounded to the nearest double, a tie going to the even
    significand: 53 significant bits, and multiples of 2^-1074 below the
    normal range. *)

Module F64.

Definition two_power (e : Z) : Q := 2 ^ e.

(** The exponent of the leading bit of a positive number. *)
Definition ilog2 (q : Q) : Z :=
  let k := (Z.log2 (Qnum q) - Z.log2 (Z.pos (Qden q)))%Z in
  if Qle_bool (two_power k) q then k else (k - 1)%Z.

(** The nearest integer, a tie going to the even one. *)
Definition rne (x : Q) : Z :=
  let f := Qfloor x in
  match Qcompare (x - inject_Z f) (1 # 2) with
  | Lt => f
  | Gt => (f + 1)%Z
  | Eq => if Z.even f then f else (f + 1)%Z
  end.

Definition emin : Z := -1074.

(** The exponent of the last bit of the significand. *)
Definition ulp_exp (q : Q) : Z := Z.max (ilog2 q - 52) emin.

Definition rnd_pos (q : Q) : Q :=
  inject_Z (rne (q / two_power (ulp_exp q))) * two_power (ulp_exp q).

(** The double nearest to a number. *)
Definition rnd (q : Q) : Q :=
  match (Qnum q ?= 0)%Z with
  | Eq => 0
  | Gt => Qred (rnd_pos (Qred q))
  | Lt => Qred (- rnd_pos (Qred (- q)))
  end.

(** [a * b], [a / b] and [a - b] on doubles. *)
Definition mul (a b : Q) : Q := rnd (a * b).

Definition div (a b : Q) : Q := rnd (a / b).

Definition sub (a b : Q) : Q := rnd (a - b).

End F64.

(** ** JavaScript primitives used by the handler *)

Module JS.

(** [Math.round]: nearest integer, a tie goes towards +infinity. *)
Definition Math_round (x : Q) : Z := Qfloor (x + (1 # 2)).

(** [Math.floor] on an integer quotient [a / b]. *)
Definition Math_floor_div (a b : Z) : Z := (a / b)%Z.

(** The [%] operator on integers: the remainder has the sign of the
    dividend. *)
Definition rem (a b : Z) : Z := Z.rem a b.

(** [a < b] on numbers. *)
Definition lt (a b : Q) : bool := negb (Qle_bool b a).

(** Number-to-string conversion of an integer. *)
Definition Z_toString (z : Z) : string := NilZero.string_of_int (Z.to_int z).

(** Number-to-string conversion of the double nearest to a number of
    hundredths, the only non-integers the handler ever prints (they come
    out of [round]): the shortest decimal notation that denotes the double,
    which is that number of hundredths without trailing zeros. *)
Definition Number_toString (q : Q) : string :=
  let n := Qfloor (q * 100 + (1 # 2)) in
  let a := Z.abs n in
  let f := (a mod 100)%Z in
  (if (n <? 0)%Z then "-" else "")
    ++ Z_toString (a / 100)
    ++ (if (f =? 0)%Z then ""
        else "." ++ (if (f mod 10 =? 0)%Z then Z_toString (f / 10)
                     else (if (f <? 10)%Z then "0" else "") ++ Z_toString f)).

(** [Array.prototype.push], as a function of the array. *)
Definition push {A} (arr : list A) (x : A) : list A := (arr ++ [x])%list.

(** [Array.prototype.includes] on an array of strings. *)
Definition includes (arr : list string) (x : string) : bool :=
  existsb (String.eqb x) arr.

(** [Array.prototype.join]. *)
Definition join (arr : list string) (sep : string) : string :=
  String.concat sep arr.

(** [Array.prototype.sort] with a comparator: a stable sort that puts [a]
    before [b] when [cmp a b <= 0]. *)
Section Sort.
Context {A : Type} (cmp : A -> A -> Q).

Fixpoint sort_insert (a : A) (l : list A) : list A :=
  match l with
  | [] => [a]
  | b :: r => if Qle_bool (cmp a b) 0 then a :: b :: r
              else b :: sort_insert a r
  end.

Fixpoint sort (l : list A) : list A :=
  match l with
  | [] => []
  | a :: r => sort_insert a (sort r)
  end.
End Sort.

End JS.

(** ** Helpers of [api.js] *)

(** [const round = (num) => Math.round(num * 100) / 100] *)
Definition round (num : Q) : Q :=
  F64.div (inject_Z (JS.Math_round (F64.mul num 100))) 100.

(** [formatTime]: minutes, a colon, and the seconds padded to two digits. *)
Definition formatTime (time : Z) : string :=
  JS.Z_toString (JS.Math_floor_div time 60)
    ++ ":"
    ++ (if (JS.rem time 60 <? 10)%Z then "0" else "")
    ++ JS.Z_toString (JS.rem time 60).

Module ModderType.
Definition FULL : string := "full".
Definition PROBATION : string := "probation".
Definition MODDER : string := "modder".
End ModderType.

(** ** Data *)

(** One element of the array returned by [osuApi.getBeatmaps]: the fields
    the handler reads. *)
Module Beatmap.
Record t := mk {
  id : Z;
  title : string;
  artist : string;
  creator : string;
  bpm : Q;
  length_total : Z;
  version : string;
  mode : string;
  difficulty_rating : Q;
  approvalStatus : string;
  beatmapSetId : string
}.
End Beatmap.

Module Diff.
Record t := mk { name : string; mode : string; sr : Q }.
End Diff.

(** The object [map] built by the handler. *)
Module Map.
Record t := mk {
  mapId : Z;
  title : string;
  artist : string;
  creator : string;
  bpm : Q;
  length : string;
  comment : string;
  m4m : bool;
  diffs : list Diff.t;
  status : string;
  image : string
}.
End Map.

(** A document of the [Request] collection: the keys of the object literal
    passed to [new Request], and [feedback], which only [request-edit]
    sets. *)
Module Request.
Record t := mk {
  mapId : Z;
  title : string;
  artist : string;
  creator : string;
  bpm : Q;
  length : string;
  comment : string;
  m4m : bool;
  diffs : list Diff.t;
  image : string;
  status : string;
  user : Z;
  requestDate : Z;
  target : string;
  archived : bool;
  feedback : option string
}.
End Request.

(** A document of the [Settings] collection: the fields the handler reads
    or writes. *)
Module Settings.
Record t := mk {
  owner : string;
  modderType : string;
  modes : list string;
  open : bool;
  cooldown : Q;
  maxPending : Z
}.

Definition set_open (b : bool) (s : t) : t :=
  mk (owner s) (modderType s) (modes s) b (cooldown s) (maxPending s).
End Settings.

Module User.
Record t := mk { username : string; userid : Z }.
End User.

(** [req.user] and [req.body] of the submission. *)
Module Req.
Record t := mk {
  user : User.t;
  id : string;
  comment : option string;
  m4m : option bool;
  target : string
}.
End Req.

(** [const isBN = (settings) => ...] *)
Definition isBN (settings : Settings.t) : bool :=
  String.eqb (Settings.modderType settings) ModderType.FULL
  || String.eqb (Settings.modderType settings) ModderType.PROBATION.

(** ** The store and the monad of the handler *)

Record DB := mkDB {
  db_requests : list Request.t;
  db_settings : list Settings.t
}.

(** A computation reads and writes the store and may throw: [None] is an
    exception that nothing in the handler catches (the request then ends
    without the handler sending a response). *)
Definition M (A : Type) : Type := DB -> option A * DB.

Definition ret {A} (a : A) : M A := fun db => (Some a, db).

Definition throw {A} : M A := fun db => (None, db).

Definition bind {A B} (m : M A) (k : A -> M B) : M B :=
  fun db =>
    match m db with
    | (Some a, db') => k a db'
    | (None, db') => (None, db')
    end.

Notation "x <- m ;; k" := (bind m (fun x => k))
  (at level 61, m at next level, right associativity).
Notation "m ;;; k" := (bind m (fun _ => k))
  (at level 61, right associativity).

(** [Settings.findOne({ owner })]: the first matching document, or null. *)
Definition find_settings (owner : string) (docs : list Settings.t)
  : option Settings.t :=
  find (fun s => String.eqb (Settings.owner s) owner) docs.

Definition Settings_findOne (owner : string) : M (option Settings.t) :=
  fun db => (Some (find_settings owner (db_settings db)), db).

(** The more recent of two documents, the earlier-stored one on a tie. *)
Definition later (best : option Request.t) (r : Request.t) : option Request.t :=
  match best with
  | None => Some r
  | Some b => if (Request.requestDate b <? Request.requestDate r)%Z
              then Some r else Some b
  end.

(** [Request.findOne({ user, target }).sort({ requestDate: -1 })]: the
    matching document with the greatest [requestDate], or null. *)
Definition latest_request (user : Z) (target : string)
  (docs : list Request.t) : option Request.t :=
  fold_left later
    (filter (fun r => (Request.user r =? user)%Z
                      && String.eqb (Request.target r) target) docs)
    None.

Definition Request_findOne_latest (user : Z) (target : string)
  : M (option Request.t) :=
  fun db => (Some (latest_request user target (db_requests db)), db).

(** [request.save()]: appends the document, or throws when the store
    refuses the write. *)
Definition Request_save (ok : bool) (r : Request.t) : M unit :=
  fun db =>
    if ok then (Some tt, mkDB (db_requests db ++ [r]) (db_settings db))
    else (None, db).

(** [Request.countDocuments({ status, target })]: the number of matching
    documents, or throws when the store fails. *)
Definition count_requests (status target : string)
  (docs : list Request.t) : Z :=
  Z.of_nat (List.length
              (filter (fun r => String.eqb (Request.status r) status
                                && String.eqb (Request.target r) target) docs)).

Definition Request_countDocuments (ok : bool) (status target : string)
  : M Z :=
  fun db =>
    if ok then (Some (count_requests status target (db_requests db)), db)
    else (None, db).

Fixpoint update_first (owner : string) (f : Settings.t -> Settings.t)
  (l : list Settings.t) : list Settings.t :=
  match l with
  | [] => []
  | s :: r => if String.eqb (Settings.owner s) owner then f s :: r
              else s :: update_first owner f r
  end.

(** [Settings.updateOne({ owner }, { $set: { open } })]: updates the first
    matching document, or throws when the store refuses the write. *)
Definition Settings_updateOne_open (ok : bool) (owner : string) (b : bool)
  : M unit :=
  fun db =>
    if ok then
      (Some tt, mkDB (db_requests db)
                     (update_first owner (Settings.set_open b) (db_settings db)))
    else (None, db).

(** ** The handler of [POST /api/request] *)

(** Outcome of [osuApi.getBeatmaps]: the promise rejects, or resolves to an
    array. *)
Inductive Lookup :=
| Rejected
| Resolved (mapData : list Beatmap.t).

(** Modelled from the spec: the client library behind [osuApi], which is
    not part of the repository. Section 4.1 has the lookup give a non-empty
    sequence of variants or fail, and fail too when the provider returns
    nothing; [new osu.Api(key)] is built with the library's defaults. The
    provider's answer is an error or a list of beatmaps. *)
Inductive ApiAnswer :=
| Failed
| Answered (beatmaps : list Beatmap.t).

Definition osuApi_getBeatmaps (answer : ApiAnswer) : Lookup :=
  match answer with
  | Failed => Rejected
  | Answered [] => Rejected
  | Answered (first :: rest) => Resolved (first :: rest)
  end.

Record Env := mkEnv {
  getBeatmaps : Lookup;
  now : Z;
  save_ok : bool;
  count_ok : bool;
  update_ok : bool
}.

(** What [res.send] is given: [{ mapset: {}, errors }], [{ map, errors }]
    with the candidate, or [{ map: request, errors }] with the saved
    document. *)
Inductive Payload :=
| EmptyObject
| MapObject (map : Map.t)
| RequestObject (request : Request.t).

Inductive Response :=
| SendMapset (mapset : Payload) (errors : list string)
| SendMap (map : Payload) (errors : list string).

Definition response_errors (r : Response) : list string :=
  match r with SendMapset _ e | SendMap _ e => e end.

Definition response_payload (r : Response) : Payload :=
  match r with SendMapset p _ | SendMap p _ => p end.

(** The [diffs] of the candidate: one entry per element of [mapData], the
    rating rounded, then sorted by rating. *)
Definition to_diff (diff : Beatmap.t) : Diff.t :=
  Diff.mk (Beatmap.version diff) (Beatmap.mode diff)
          (round (Beatmap.difficulty_rating diff)).

(** The comparator [(a, b) => a.sr - b.sr]; the difference of two doubles
    has the sign of their exact difference. *)
Definition by_sr (a b : Diff.t) : Q := Diff.sr a - Diff.sr b.

Definition make_diffs (mapData : list Beatmap.t) : list Diff.t :=
  JS.sort by_sr (List.map to_diff mapData).

(** The object literal [map]; [first] is [mapData[0]]. *)
Definition make_map (first : Beatmap.t) (mapData : list Beatmap.t)
  (req : Req.t) : Map.t :=
  Map.mk
    (Beatmap.id first)
    (Beatmap.title first)
    (Beatmap.artist first)
    (Beatmap.creator first)
    (Beatmap.bpm first)
    (formatTime (Beatmap.length_total first))
    (match Req.comment req with Some c => if String.eqb c "" then "" else c
                              | None => "" end)
    (match Req.m4m req with Some b => b || false | None => false end)
    (make_diffs mapData)
    (Beatmap.approvalStatus first)
    ("https://assets.ppy.sh/beatmaps/" ++ Beatmap.beatmapSetId first
       ++ "/covers/cover.jpg").

(** The rule blocks, each a transformer of the array [errors]. *)

Definition check_modes (map : Map.t) (settings : Settings.t)
  (errors : list string) : list string :=
  let acceptableDiffs :=
    filter (fun diff => JS.includes (Settings.modes settings) (Diff.mode diff))
           (Map.diffs map) in
  if (List.length acceptableDiffs =? 0)%nat then
    if (List.length (Settings.modes settings) =? 1)%nat then
      JS.push errors
        ("Only " ++ hd "undefined" (Settings.modes settings)
           ++ " maps are accepted")%string
    else
      JS.push errors
        ("Must be one of the following gamemodes: "
           ++ JS.join (Settings.modes settings) ", ")%string
  else errors.

Definition check_status (map : Map.t) (settings : Settings.t)
  (errors : list string) : list string :=
  if isBN settings && negb (String.eqb (Map.status map) "Pending") then
    JS.push errors ("Expected a Pending map (this is " ++ Map.status map ++ ")")%string
  else errors.

Definition check_creator (map : Map.t) (req : Req.t)
  (errors : list string) : list string :=
  if negb (String.eqb (Map.creator map) (User.username (Req.user req))) then
    JS.push errors "This map isn't yours"
  else errors.

Definition check_comment (map : Map.t) (errors : list string) : list string :=
  if (500 <? String.length (Map.comment map))%nat then
    JS.push errors "Comment is excessively long"
  else errors.

Definition check_open (settings : Settings.t) (errors : list string)
  : list string :=
  if negb (Settings.open settings) then JS.push errors "Requests are closed"
  else errors.

(** The number printed by the cooldown message:
    [round((minWait - diff) / (24 * 3600 * 1000))]. *)
Definition remaining_days (minWait : Q) (diff : Z) : Q :=
  round (F64.div (F64.sub minWait (inject_Z diff))
                 (F64.mul (F64.mul 24 3600) 1000)).

Definition check_cooldown (lastReq : option Request.t) (now : Z)
  (settings : Settings.t) (errors : list string) : list string :=
  match lastReq with
  | Some lastReq =>
      let diff := (now - Request.requestDate lastReq)%Z in
      let minWait :=
        F64.mul (F64.mul (F64.mul (Settings.cooldown settings) 24) 3600) 1000 in
      if JS.lt (inject_Z diff) minWait then
        JS.push errors
          ("You need to wait "
             ++ JS.Number_toString (remaining_days minWait diff)
             ++ " days before you can request again")%string
      else errors
  | None => errors
  end.

(** [errors] as it stands after the six blocks and the owner bypass. *)
Definition validate (map : Map.t) (req : Req.t) (settings : Settings.t)
  (lastReq : option Request.t) (now : Z) : list string :=
  let errors := [] in
  let errors := check_modes map settings errors in
  let errors := check_status map settings errors in
  let errors := check_creator map req errors in
  let errors := check_comment map errors in
  let errors := check_open settings errors in
  let errors := check_cooldown lastReq now settings errors in
  if String.eqb (User.username (Req.user req)) (Req.target req) then []
  else errors.

(** [new Request({ ...map, status: "Pending", user, requestDate, target,
    archived: false })]: the keys of [map] are copied first and the later
    [status] key replaces the one copied from [map]. *)
Definition new_Request (map : Map.t) (req : Req.t) (now : Z) : Request.t :=
  Request.mk
    (Map.mapId map) (Map.title map) (Map.artist map) (Map.creator map)
    (Map.bpm map) (Map.length map) (Map.comment map) (Map.m4m map)
    (Map.diffs map) (Map.image map)
    "Pending"
    (User.userid (Req.user req))
    now
    (Req.target req)
    false
    None.

Definition handler (env : Env) (req : Req.t) : M Response :=
  match getBeatmaps env with
  | Rejected => ret (SendMapset EmptyObject ["Invalid beatmap ID"])
  | Resolved mapData =>
      match mapData with
      | [] => throw
      | first :: _ =>
          let map := make_map first mapData req in
          settings <- Settings_findOne (Req.target req);;
          lastReq <- Request_findOne_latest (User.userid (Req.user req))
                                            (Req.target req);;
          match settings with
          | None => throw
          | Some settings =>
              let errors := validate map req settings lastReq (now env) in
              if negb (List.length errors =? 0)%nat then
                ret (SendMap (MapObject map) errors)
              else
                let request := new_Request map req (now env) in
                Request_save (save_ok env) request;;;
                numPending <- Request_countDocuments (count_ok env) "Pending"
                                (Req.target req);;
                (if (numPending >=? Settings.maxPending settings)%Z
                 then Settings_updateOne_open (update_ok env) (Req.target req)
                        false
                 else ret tt);;;
                ret (SendMap (RequestObject request) errors)
          end
      end
  end.

(** ** The specification's reading of the pipeline *)

Module Spec.




Definition msPerDay : Q := 86400000.

(** "cooldown days x 24 x 3600 x 1000 ms" *)
Definition cooldownMs (settings : Settings.t) : Q :=
  F64.mul (F64.mul (F64.mul (Settings.cooldown settings) 24) 3600) 1000.

(** "pending (non-archived, status = Pending) Requests" of a target. *)
Definition pending_count (target : string) (docs : list Request.t) : Z :=
  Z.of_nat
    (List.length
       (filter (fun r => negb (Request.archived r)
                         && String.eqb (Request.status r) "Pending"
                         && String.eqb (Request.target r) target) docs)).

(** Rule 1: at least one variant in an accepted category. *)
Definition wrong_category (map : Map.t) (settings : Settings.t) : bool :=
  negb (existsb (fun d => existsb (String.eqb (Diff.mode d))
                                  (Settings.modes settings))
                (Map.diffs map)).

Definition category_message (settings : Settings.t) : string :=
  match Settings.modes settings with
  | [c] => "Only " ++ c ++ " maps are accepted"
  | cs => "Must be one of the following gamemodes: " ++ String.concat ", " cs
  end.

Definition category_rule (map : Map.t) (settings : Settings.t) : list string :=
  if wrong_category map settings then [category_message settings] else [].

(** Rule 2: elevated tiers only take maps whose status is "Pending". *)
Definition status_rule (map : Map.t) (settings : Settings.t) : list string :=
  if (String.eqb (Settings.modderType settings) "full"
      || String.eqb (Settings.modderType settings) "probation")
     && negb (String.eqb (Map.status map) "Pending")
  then [("Expected a Pending map (this is " ++ Map.status map ++ ")")%string]
  else [].

(** Rule 3: the creator is the requester. *)
Definition ownership_rule (map : Map.t) (requester : string) : list string :=
  if String.eqb (Map.creator map) requester then []
  else ["This map isn't yours"].

(** Rule 4: at most 500 characters of comment. *)
Definition comment_rule (map : Map.t) : list string :=
  if (String.length (Map.comment map) <=? 500)%nat then []
  else ["Comment is excessively long"].

(** Rule 5: the queue is open. *)
Definition open_rule (settings : Settings.t) : list string :=
  if Settings.open settings then [] else ["Requests are closed"].

(** Rule 6: the cooldown since the most recent prior request. *)
Definition cooldown_rule (lastReq : option Request.t) (now : Z)
  (settings : Settings.t) : list string :=
  match lastReq with
  | None => []
  | Some r =>
      let elapsedMs := inject_Z (now - Request.requestDate r) in
      if Qle_bool (cooldownMs settings) elapsedMs then []
      else [("You need to wait "
               ++ JS.Number_toString
                    (round (F64.div (F64.sub (cooldownMs settings) elapsedMs)
                                    msPerDay))
               ++ " days before you can request again")%string]
  end.

(** The six rules, each on its own, in the order of the specification. *)
Definition reasons (map : Map.t) (requester : string) (settings : Settings.t)
  (lastReq : option Request.t) (now : Z) : list string :=
  (category_rule map settings
     ++ status_rule map settings
     ++ ownership_rule map requester
     ++ comment_rule map
     ++ open_rule settings
     ++ cooldown_rule lastReq now settings)%list.


End Spec.

(** The candidate's fields other than [status], as a stored document has
    them. *)
Definition carries_candidate_but_status (r : Request.t) (m : Map.t) : Prop :=
  Request.mapId r = Map.mapId m
  /\ Request.title r = Map.title m
  /\ Request.artist r = Map.artist m
  /\ Request.creator r = Map.creator m
  /\ Request.bpm r = Map.bpm m
  /\ Request.length r = Map.length m
  /\ Request.comment r = Map.comment m
  /\ Request.m4m r = Map.m4m m
  /\ Request.diffs r = Map.diffs m
  /\ Request.image r = Map.image m.

(** Ratings in non-decreasing order. *)
Definition sr_le (a b : Diff.t) : Prop := Diff.sr a <= Diff.sr b.

(** [sr] is [rating] rounded to two decimals: the double nearest to a whole
    number of hundredths, that number being the integer nearest to the
    product of the rating and 100 as the machine computes it (a tie going
    up). *)
Definition rounded_to_hundredths (rating sr : Q) : Prop :=
  exists n : Z,
    sr = F64.div (inject_Z n) 100
    /\ F64.mul rating 100 - (1 # 2) < inject_Z n
    /\ inject_Z n <= F64.mul rating 100 + (1 # 2).

(** Rewriting the [archived] flag of stored documents, as [request-edit]
    may do. *)
Definition set_archived (b : bool) (r : Request.t) : Request.t :=
  Request.mk (Request.mapId r) (Request.title r) (Request.artist r)
    (Request.creator r) (Request.bpm r) (Request.length r) (Request.comment r)
    (Request.m4m r) (Request.diffs r) (Request.image r) (Request.status r)
    (Request.user r) (Request.requestDate r) (Request.target r) b
    (Request.feedback r).

Definition rearchive (flag : Request.t -> bool) (db : DB) : DB :=
  mkDB (List.map (fun r => set_archived (flag r) r) (db_requests db))
       (db_settings db).

(** The [open] flag of a target's settings in a store. *)
Definition queue_open (target : string) (db : DB) : option bool :=
  option_map Settings.open (find_settings target (db_settings db)).

(** ** Concrete data for the examples *)

Module Sample.

Definition hard : Beatmap.t :=
  Beatmap.mk 101 "Song" "Band" "alice" (180 # 1) 125 "Insane" "Standard"
             (5123 # 1000) "Ranked" "77".

Definition easy : Beatmap.t :=
  Beatmap.mk 102 "Song" "Band" "alice" (180 # 1) 125 "Easy" "Standard"
             (1507 # 1000) "Ranked" "77".

Definition mapData : list Beatmap.t := [hard; easy].

Definition alice : User.t := User.mk "alice" 1.
Definition bob : User.t := User.mk "bob" 2.

Fixpoint repeat_char (c : ascii) (n : nat) : string :=
  match n with
  | O => EmptyString
  | S k => String c (repeat_char c k)
  end.

Definition long_comment : string := repeat_char "x"%char 501.

(** A plain modder's queue that takes Standard maps, two pending at most. *)
Definition bob_settings : Settings.t :=
  Settings.mk "bob" "modder" ["Standard"] true (1 # 1) 2.

(** A full nominator's queue that takes Taiko maps only. *)
Definition taiko_settings : Settings.t :=
  Settings.mk "bob" "full" ["Taiko"] false (7 # 1) 2.

Definition old_request (archived : bool) (date : Z) : Request.t :=
  Request.mk 55 "Old" "Band" "alice" (120 # 1) "1:30" "" false [] ""
             "Pending" 1 date "bob" archived None.

Definition day : Z := 86400000.

Definition req_to_bob : Req.t := Req.mk alice "77" (Some "please") None "bob".
Definition req_long : Req.t := Req.mk alice "77" (Some long_comment) None "bob".
Definition req_self : Req.t := Req.mk bob "77" (Some long_comment) None "bob".

Definition db_empty : DB := mkDB [] [bob_settings].
Definition db_one_archived : DB :=
  mkDB [old_request true 0] [bob_settings].
Definition db_taiko : DB :=
  mkDB [old_request false 0] [taiko_settings].

Definition env_at (t : Z) : Env := mkEnv (Resolved mapData) t true true true.
Definition env_rejected : Env := mkEnv Rejected 0 true true true.

End Sample.

(** ** The other routes of [api.js] *)

(** The comparator of [sort({ requestDate: -1 })]: most recent first. *)
Definition by_date_desc (a b : Request.t) : Q :=
  inject_Z (Request.requestDate b - Request.requestDate a).

Definition date_ge (a b : Request.t) : Prop :=
  (Request.requestDate b <= Request.requestDate a)%Z.

(** [GET /api/requests]: the documents of [target] whose [archived] flag is
    the one asked for, most recent first; [archived] is the query parameter
    as the store casts it. *)
Definition get_requests (target : string) (archived : bool)
  : M (list Request.t) :=
  fun db =>
    (Some (JS.sort by_date_desc
             (filter (fun r => String.eqb (Request.target r) target
                               && Bool.eqb (Request.archived r) archived)
                     (db_requests db))), db).

(** A document of the [Request] collection together with its [_id]; the
    routes below address documents by it. *)
Module Stored.
Record t := mk { _id : Z; doc : Request.t }.
End Stored.

(** [Request.deleteOne({ _id, user })]: removes the first document with
    that id and that owning user, if there is one. *)
Fixpoint Request_deleteOne (id user : Z) (docs : list Stored.t)
  : list Stored.t :=
  match docs with
  | [] => []
  | d :: r => if (Stored._id d =? id)%Z
                 && (Request.user (Stored.doc d) =? user)%Z
              then r
              else d :: Request_deleteOne id user r
  end.

(** [DELETE /api/request]: the store after the call; the response is always
    the empty object. *)
Definition delete_request (user : User.t) (id : Z) (docs : list Stored.t)
  : list Stored.t :=
  Request_deleteOne id (User.userid user) docs.

(** [$set: { feedback, status, archived }] on one document. *)
Definition set_moderation (feedback status : string) (archived : bool)
  (r : Request.t) : Request.t :=
  Request.mk (Request.mapId r) (Request.title r) (Request.artist r)
    (Request.creator r) (Request.bpm r) (Request.length r) (Request.comment r)
    (Request.m4m r) (Request.diffs r) (Request.image r) status
    (Request.user r) (Request.requestDate r) (Request.target r) archived
    (Some feedback).

(** [Request.findOneAndUpdate({ _id }, { $set: ... }, { new: true })]: the
    first document with that id is updated and returned as updated; null
    and no change when there is none. *)
Fixpoint Request_findOneAndUpdate (id : Z) (f : Request.t -> Request.t)
  (docs : list Stored.t) : option Stored.t * list Stored.t :=
  match docs with
  | [] => (None, [])
  | d :: r =>
      if (Stored._id d =? id)%Z then
        let d' := Stored.mk (Stored._id d) (f (Stored.doc d)) in
        (Some d', d' :: r)
      else
        let (res, r') := Request_findOneAndUpdate id f r in
        (res, d :: r')
  end.

(** [POST /api/request-edit]: what is sent back, and the store after the
    call. *)
Definition request_edit (id : Z) (feedback status : string) (archived : bool)
  (docs : list Stored.t) : option Stored.t * list Stored.t :=
  Request_findOneAndUpdate id (set_moderation feedback status archived) docs.

(** The documents of a collection without their ids. *)
Definition documents (docs : list Stored.t) : list Request.t :=
  List.map Stored.doc docs.

(** [GET /api/settings] *)
Definition get_settings (owner : string) : M (option Settings.t) :=
  Settings_findOne owner.

(** The object [req.body.settings] of [POST /api/settings]: the fields of
    the settings it carries. *)
Module Patch.
Record t := mk {
  owner : option string;
  modderType : option string;
  modes : option (list string);
  open : option bool;
  cooldown : option Q;
  maxPending : option Z
}.
End Patch.

Definition or_else {A} (o : option A) (a : A) : A :=
  match o with Some x => x | None => a end.

(** [$set: req.body.settings] on one document. *)
Definition apply_patch (p : Patch.t) (s : Settings.t) : Settings.t :=
  Settings.mk
    (or_else (Patch.owner p) (Settings.owner s))
    (or_else (Patch.modderType p) (Settings.modderType s))
    (or_else (Patch.modes p) (Settings.modes s))
    (or_else (Patch.open p) (Settings.open s))
    (or_else (Patch.cooldown p) (Settings.cooldown s))
    (or_else (Patch.maxPending p) (Settings.maxPending s)).

(** [POST /api/settings]: updates the caller's own settings. *)
Definition post_settings (user : User.t) (settings : Patch.t) : M unit :=
  fun db =>
    (Some tt, mkDB (db_requests db)
                   (update_first (User.username user) (apply_patch settings)
                                 (db_settings db))).

(** [POST /api/open] *)
Definition post_open (owner : string) (open : bool) : M unit :=
  Settings_updateOne_open true owner open.

(** The two digits of a number below 100, as [formatTime] prints seconds. *)
Definition digit (n : Z) : ascii := ascii_of_nat (48 + Z.to_nat n).

Definition two_digits (s : Z) : string :=
  String (digit (s / 10)) (String (digit (s mod 10)) EmptyString).

(** ** Numbers *)

Lemma lt_spec (a b : Q) : JS.lt a b = true <-> a < b.
Proof.
  unfold JS.lt. rewrite negb_true_iff, <- not_true_iff_false, Qle_bool_iff.
  split; [apply Qnot_le_lt | apply Qlt_not_le].
Qed.

Lemma lt_false (a b : Q) : JS.lt a b = false <-> b <= a.
Proof.
  unfold JS.lt. rewrite negb_false_iff. apply Qle_bool_iff.
Qed.

Lemma Qle_bool_comp (a b c d : Q) :
  a == c -> b == d -> Qle_bool a b = Qle_bool c d.
Proof.
  intros H1 H2. apply eq_true_iff_eq.
  rewrite !Qle_bool_iff, H1, H2. reflexivity.
Qed.

(** ** Binary64 rounding *)

Lemma two_power_pos (e : Z) : 0 < F64.two_power e.
Proof. apply Qpower_0_lt. reflexivity. Qed.

Lemma two_power_plus (a b : Z) :
  F64.two_power (a + b) == F64.two_power a * F64.two_power b.
Proof. apply Qpower_plus. discriminate. Qed.

Lemma two_power_le (a b : Z) :
  (a <= b)%Z -> F64.two_power a <= F64.two_power b.
Proof. intros H. apply Qpower_le_compat_l; [exact H | discriminate]. Qed.

Lemma two_power_lt_inv (a b : Z) :
  F64.two_power a < F64.two_power b -> (a < b)%Z.
Proof. intros H. apply (Qpower_lt_compat_l_inv 2); [exact H | reflexivity]. Qed.

Lemma two_power_Z (n : Z) :
  (0 <= n)%Z -> F64.two_power n == inject_Z (2 ^ n).
Proof. intros H. unfold F64.two_power. rewrite Zpower_Qpower by exact H. reflexivity. Qed.

Lemma ilog2_spec (q : Q) :
  0 < q ->
  F64.two_power (F64.ilog2 q) <= q /\ q < F64.two_power (F64.ilog2 q + 1).
Proof.
  intros Hq. destruct q as [n d]. unfold F64.ilog2. cbn [Qnum Qden].
  assert (Hn : (0 < n)%Z) by (unfold Qlt in Hq; cbn in Hq; lia).
  pose proof (Z.log2_spec n Hn) as [Ln Un].
  pose proof (Z.log2_spec (Z.pos d) (Pos2Z.is_pos d)) as [Ld Ud].
  pose proof (Z.log2_nonneg n) as Nn.
  pose proof (Z.log2_nonneg (Z.pos d)) as Nd.
  set (a := Z.log2 n) in *. set (b := Z.log2 (Z.pos d)) in *.
  assert (Hd : 0 < inject_Z (Z.pos d)) by reflexivity.
  assert (Eq : n # d == inject_Z n / inject_Z (Z.pos d)).
  { rewrite Qmake_Qdiv. reflexivity. }
  assert (Lo : F64.two_power (a - b - 1) <= n # d).
  { rewrite Eq. apply Qle_shift_div_l; [exact Hd|].
    apply Qle_trans with (F64.two_power (a - b - 1) * F64.two_power (b + 1)).
    - apply Qmult_le_l; [apply two_power_pos|].
      rewrite two_power_Z by lia. rewrite <- Zle_Qle. lia.
    - rewrite <- two_power_plus.
      replace (a - b - 1 + (b + 1))%Z with a by ring.
      rewrite two_power_Z by lia. rewrite <- Zle_Qle. exact Ln. }
  assert (Hi : n # d < F64.two_power (a - b + 1)).
  { rewrite Eq. apply Qlt_shift_div_r; [exact Hd|].
    apply Qlt_le_trans with (F64.two_power (a - b + 1) * F64.two_power b).
    - rewrite <- two_power_plus.
      replace (a - b + 1 + b)%Z with (a + 1)%Z by ring.
      rewrite two_power_Z by lia. rewrite <- Zlt_Qlt.
      replace (a + 1)%Z with (Z.succ a) by lia. exact Un.
    - apply Qmult_le_l; [apply two_power_pos|].
      rewrite two_power_Z by lia. rewrite <- Zle_Qle. exact Ld. }
  destruct (Qle_bool (F64.two_power (a - b)) (n # d)) eqn:E.
  - apply Qle_bool_iff in E. split; assumption.
  - split; [exact Lo|].
    replace (a - b - 1 + 1)%Z with (a - b)%Z by ring.
    apply Qnot_le_lt. intros H. apply Qle_bool_iff in H. congruence.
Qed.

Lemma ilog2_le (x y : Q) : 0 < x -> x <= y -> (F64.ilog2 x <= F64.ilog2 y)%Z.
Proof.
  intros Hx Hxy.
  assert (Hy : 0 < y) by (eapply Qlt_le_trans; eassumption).
  destruct (ilog2_spec x Hx) as [Lx _].
  destruct (ilog2_spec y Hy) as [_ Uy].
  assert (H : F64.two_power (F64.ilog2 x) < F64.two_power (F64.ilog2 y + 1)).
  { eapply Qle_lt_trans; [exact Lx|]. eapply Qle_lt_trans; eassumption. }
  apply two_power_lt_inv in H. lia.
Qed.

Lemma rne_cases (x : Q) :
  (x - inject_Z (Qfloor x) < 1 # 2 /\ F64.rne x = Qfloor x)
  \/ (1 # 2 < x - inject_Z (Qfloor x) /\ F64.rne x = (Qfloor x + 1)%Z)
  \/ (x - inject_Z (Qfloor x) == 1 # 2
      /\ F64.rne x = if Z.even (Qfloor x) then Qfloor x else (Qfloor x + 1)%Z).
Proof.
  unfold F64.rne. cbv zeta.
  destruct (Qcompare_spec (x - inject_Z (Qfloor x)) (1 # 2)) as [E | L | G]; auto.
Qed.

Lemma rne_floor (x : Q) : (Qfloor x <= F64.rne x <= Qfloor x + 1)%Z.
Proof.
  destruct (rne_cases x) as [[_ ->] | [[_ ->] | [_ ->]]]; try lia.
  destruct (Z.even (Qfloor x)); lia.
Qed.

Lemma rne_ge (x : Q) (n : Z) : inject_Z n <= x -> (n <= F64.rne x)%Z.
Proof.
  intros H. apply Qfloor_resp_le in H. rewrite Qfloor_Z in H.
  pose proof (rne_floor x). lia.
Qed.

Lemma rne_le (x : Q) (n : Z) : x <= inject_Z n -> (F64.rne x <= n)%Z.
Proof.
  intros H. pose proof (Qfloor_resp_le _ _ H) as F. rewrite Qfloor_Z in F.
  destruct (Z.eq_dec (Qfloor x) n) as [E | E].
  - destruct (rne_cases x) as [[_ ->] | [[L _] | [L _]]]; [lia | |];
      exfalso; rewrite E in L.
    + assert (T : 1 # 2 < inject_Z n - inject_Z n).
      { eapply Qlt_le_trans; [exact L|]. apply Qplus_le_l, H. }
      ring_simplify in T. discriminate T.
    + assert (T : 1 # 2 <= inject_Z n - inject_Z n).
      { rewrite <- L. apply Qplus_le_l, H. }
      ring_simplify in T. apply T. reflexivity.
  - pose proof (rne_floor x). lia.
Qed.

Lemma rne_monotone (x y : Q) : x <= y -> (F64.rne x <= F64.rne y)%Z.
Proof.
  intros H. pose proof (Qfloor_resp_le _ _ H) as F.
  destruct (Z.eq_dec (Qfloor x) (Qfloor y)) as [E | E].
  - assert (R : x - inject_Z (Qfloor x) <= y - inject_Z (Qfloor y)).
    { rewrite E. apply Qplus_le_l, H. }
    destruct (rne_cases x) as [[_ Ex] | [[Lx Ex] | [Lx Ex]]];
      destruct (rne_cases y) as [[Ly Ey] | [[Ly Ey] | [Ly Ey]]];
      rewrite Ex, Ey, <- ?E; try (destruct (Z.even (Qfloor x)); lia); try lia;
      exfalso.
    + apply (Qlt_irrefl (1 # 2)).
      eapply Qlt_le_trans; [exact Lx|]. eapply Qle_trans; [exact R|].
      apply Qlt_le_weak, Ly.
    + apply (Qlt_irrefl (1 # 2)).
      eapply Qlt_le_trans; [exact Lx|]. rewrite <- Ly. exact R.
    + apply (Qlt_irrefl (1 # 2)).
      rewrite <- Lx at 1. eapply Qle_lt_trans; [exact R | exact Ly].
  - pose proof (rne_floor x). pose proof (rne_floor y). lia.
Qed.

Lemma rne_comp (x y : Q) : x == y -> F64.rne x = F64.rne y.
Proof.
  intros E. apply Z.le_antisymm; apply rne_monotone; rewrite E; apply Qle_refl.
Qed.

Lemma ulp_exp_le (x y : Q) :
  0 < x -> x <= y -> (F64.ulp_exp x <= F64.ulp_exp y)%Z.
Proof.
  intros Hx Hxy. unfold F64.ulp_exp.
  pose proof (ilog2_le x y Hx Hxy). lia.
Qed.

Lemma scaled_lower (y : Q) :
  0 < y -> (F64.emin < F64.ulp_exp y)%Z ->
  F64.two_power (F64.ulp_exp y + 52) <= F64.rnd_pos y.
Proof.
  intros Hy He. unfold F64.rnd_pos.
  assert (Ee : F64.ulp_exp y = (F64.ilog2 y - 52)%Z)
    by (unfold F64.ulp_exp in *; lia).
  destruct (ilog2_spec y Hy) as [L _].
  rewrite two_power_plus, Qmult_comm.
  apply Qmult_le_r; [apply two_power_pos|].
  rewrite (two_power_Z 52) by lia. rewrite <- Zle_Qle. apply rne_ge.
  apply Qle_shift_div_l; [apply two_power_pos|].
  rewrite <- (two_power_Z 52) by lia. rewrite <- two_power_plus.
  replace (52 + F64.ulp_exp y)%Z with (F64.ilog2 y) by lia. exact L.
Qed.

Lemma scaled_upper (x : Q) :
  0 < x -> F64.rnd_pos x <= F64.two_power (F64.ulp_exp x + 53).
Proof.
  intros Hx. unfold F64.rnd_pos.
  destruct (ilog2_spec x Hx) as [_ U].
  rewrite two_power_plus,
    (Qmult_comm (F64.two_power (F64.ulp_exp x)) (F64.two_power 53)).
  apply Qmult_le_r; [apply two_power_pos|].
  rewrite (two_power_Z 53) by lia. rewrite <- Zle_Qle. apply rne_le.
  apply Qle_shift_div_r; [apply two_power_pos|].
  rewrite <- (two_power_Z 53) by lia. rewrite <- two_power_plus.
  apply Qlt_le_weak. eapply Qlt_le_trans; [exact U|].
  apply two_power_le. unfold F64.ulp_exp. lia.
Qed.

Lemma rnd_pos_nonneg (x : Q) : 0 < x -> 0 <= F64.rnd_pos x.
Proof.
  intros Hx. unfold F64.rnd_pos.
  apply Qmult_le_0_compat; [|apply Qlt_le_weak, two_power_pos].
  change 0 with (inject_Z 0). rewrite <- Zle_Qle. apply rne_ge.
  apply Qle_shift_div_l; [apply two_power_pos|].
  rewrite Qmult_0_l. apply Qlt_le_weak, Hx.
Qed.

Lemma rnd_pos_monotone (x y : Q) :
  0 < x -> x <= y -> F64.rnd_pos x <= F64.rnd_pos y.
Proof.
  intros Hx Hxy.
  assert (Hy : 0 < y) by (eapply Qlt_le_trans; eassumption).
  pose proof (ulp_exp_le x y Hx Hxy) as He.
  destruct (Z.eq_dec (F64.ulp_exp x) (F64.ulp_exp y)) as [E | E].
  - unfold F64.rnd_pos. rewrite E.
    apply Qmult_le_r; [apply two_power_pos|].
    rewrite <- Zle_Qle. apply rne_monotone.
    apply Qmult_le_r; [apply Qinv_lt_0_compat, two_power_pos | exact Hxy].
  - apply Qle_trans with (F64.two_power (F64.ulp_exp x + 53)).
    + apply scaled_upper, Hx.
    + apply Qle_trans with (F64.two_power (F64.ulp_exp y + 52)).
      * apply two_power_le. lia.
      * apply scaled_lower; [exact Hy|].
        unfold F64.ulp_exp in *. lia.
Qed.

Lemma rnd_cases (q : Q) :
  (q == 0 /\ F64.rnd q = 0)
  \/ (0 < q /\ F64.rnd q = Qred (F64.rnd_pos (Qred q)))
  \/ (q < 0 /\ F64.rnd q = Qred (- F64.rnd_pos (Qred (- q)))).
Proof.
  unfold F64.rnd. destruct q as [n d]. cbn [Qnum].
  destruct (Z.compare_spec n 0) as [E | L | G].
  - left. split; [|reflexivity]. unfold Qeq. cbn. lia.
  - right. right. split; [|reflexivity]. unfold Qlt. cbn. lia.
  - right. left. split; [|reflexivity]. unfold Qlt. cbn. lia.
Qed.

Lemma rnd_comp (x y : Q) : x == y -> F64.rnd x = F64.rnd y.
Proof.
  intros E.
  destruct (rnd_cases x) as [[Hx ->] | [[Hx ->] | [Hx ->]]];
    destruct (rnd_cases y) as [[Hy ->] | [[Hy ->] | [Hy ->]]];
    try reflexivity;
    try (exfalso; rewrite E in Hx; rewrite Hy in Hx; discriminate Hx);
    try (exfalso; rewrite <- E in Hy; rewrite Hx in Hy; discriminate Hy);
    try (exfalso; rewrite E in Hx;
         apply (Qlt_irrefl 0); eapply Qlt_trans; eassumption).
  - rewrite (Qred_complete _ _ E). reflexivity.
  - assert (E' : - x == - y) by (rewrite E; reflexivity).
    rewrite (Qred_complete _ _ E'). reflexivity.
Qed.

Lemma rnd_pos_red_nonneg (q : Q) : 0 < q -> 0 <= Qred (F64.rnd_pos (Qred q)).
Proof.
  intros H. rewrite Qred_correct. apply rnd_pos_nonneg.
  rewrite (Qred_correct q). exact H.
Qed.

Lemma rnd_nonneg (q : Q) : 0 <= q -> 0 <= F64.rnd q.
Proof.
  intros H. destruct (rnd_cases q) as [[_ ->] | [[Hq ->] | [Hq _]]].
  - apply Qle_refl.
  - apply rnd_pos_red_nonneg, Hq.
  - exfalso. apply (Qlt_irrefl 0). eapply Qle_lt_trans; eassumption.
Qed.

Lemma Qopp_pos (q : Q) : q < 0 -> 0 < - q.
Proof.
  intros H. apply Qplus_lt_l with (z := q). ring_simplify. exact H.
Qed.

Lemma rnd_nonpos (q : Q) : q <= 0 -> F64.rnd q <= 0.
Proof.
  intros H. destruct (rnd_cases q) as [[_ ->] | [[Hq _] | [Hq ->]]].
  - apply Qle_refl.
  - exfalso. apply (Qlt_irrefl 0). eapply Qlt_le_trans; eassumption.
  - rewrite Qred_correct.
    assert (Hq' : 0 < Qred (- q)) by (rewrite Qred_correct; apply Qopp_pos, Hq).
    pose proof (rnd_pos_nonneg (Qred (- q)) Hq') as P.
    apply Qplus_le_l with (z := F64.rnd_pos (Qred (- q))).
    ring_simplify. exact P.
Qed.

Lemma rnd_positive_case (q : Q) :
  0 < q -> F64.rnd q = Qred (F64.rnd_pos (Qred q)).
Proof.
  intros H. destruct (rnd_cases q) as [[E _] | [[_ E] | [L _]]].
  - rewrite E in H. discriminate H.
  - exact E.
  - destruct (Qlt_irrefl 0 (Qlt_trans _ _ _ H L)).
Qed.

Lemma rnd_negative_case (q : Q) :
  q < 0 -> F64.rnd q = Qred (- F64.rnd_pos (Qred (- q))).
Proof.
  intros H. destruct (rnd_cases q) as [[E _] | [[L _] | [_ E]]].
  - rewrite E in H. discriminate H.
  - destruct (Qlt_irrefl 0 (Qlt_trans _ _ _ L H)).
  - exact E.
Qed.

Lemma rnd_monotone (x y : Q) : x <= y -> F64.rnd x <= F64.rnd y.
Proof.
  intros H.
  destruct (Qlt_le_dec 0 x) as [Px | Nx].
  - assert (Py : 0 < y) by (apply (Qlt_le_trans _ x); assumption).
    rewrite (rnd_positive_case x Px), (rnd_positive_case y Py).
    rewrite (Qred_correct (F64.rnd_pos (Qred x))),
      (Qred_correct (F64.rnd_pos (Qred y))).
    apply rnd_pos_monotone.
    + rewrite (Qred_correct x). exact Px.
    + rewrite (Qred_correct x), (Qred_correct y). exact H.
  - destruct (Qlt_le_dec y 0) as [Ny | Py].
    + assert (Nx' : x < 0) by (apply (Qle_lt_trans _ y); assumption).
      rewrite (rnd_negative_case x Nx'), (rnd_negative_case y Ny).
      rewrite (Qred_correct (- F64.rnd_pos (Qred (- x)))),
        (Qred_correct (- F64.rnd_pos (Qred (- y)))).
      apply Qopp_le_compat. apply rnd_pos_monotone.
      * rewrite (Qred_correct (- y)). apply Qopp_pos, Ny.
      * rewrite (Qred_correct (- x)), (Qred_correct (- y)).
        apply Qopp_le_compat, H.
    + apply Qle_trans with 0; [apply rnd_nonpos, Nx | apply rnd_nonneg, Py].
Qed.

Lemma mul_comp (a b c : Q) : a == b -> F64.mul a c = F64.mul b c.
Proof. intros E. apply rnd_comp. rewrite E. reflexivity. Qed.

Lemma round_comp (x y : Q) : x == y -> round x = round y.
Proof. intros E. unfold round. rewrite (mul_comp _ _ _ E). reflexivity. Qed.

Lemma msPerDay_product : F64.mul (F64.mul 24 3600) 1000 = Spec.msPerDay.
Proof. vm_compute. reflexivity. Qed.

Lemma Math_round_bounds (y : Q) :
  inject_Z (JS.Math_round y) <= y + (1 # 2)
  /\ y - (1 # 2) < inject_Z (JS.Math_round y).
Proof.
  unfold JS.Math_round. split.
  - apply Qfloor_le.
  - pose proof (Qlt_floor (y + (1 # 2))) as H.
    rewrite inject_Z_plus in H.
    apply Qplus_lt_l with (z := 1).
    setoid_replace (y - (1 # 2) + 1) with (y + (1 # 2)) by ring.
    exact H.
Qed.

(** Integer division facts behind [Math.round]. *)




(** ** Sorting by rating *)

Lemma by_sr_le (a b : Diff.t) : Qle_bool (by_sr a b) 0 = true <-> sr_le a b.
Proof.
  unfold by_sr, sr_le. rewrite Qle_bool_iff. split; intros H.
  - apply Qplus_le_l with (z := - Diff.sr b). ring_simplify.
    ring_simplify in H. exact H.
  - apply Qplus_le_l with (z := Diff.sr b). ring_simplify. exact H.
Qed.

Lemma by_sr_gt (a b : Diff.t) : Qle_bool (by_sr a b) 0 = false -> sr_le b a.
Proof.
  intros H. unfold sr_le. apply Qlt_le_weak, Qnot_le_lt. intros L.
  apply by_sr_le in L. congruence.
Qed.

Lemma sort_insert_perm {A} (cmp : A -> A -> Q) (a : A) (l : list A) :
  Permutation (JS.sort_insert cmp a l) (a :: l).
Proof.
  induction l as [|b r IH]; simpl.
  - apply Permutation_refl.
  - destruct (Qle_bool (cmp a b) 0).
    + apply Permutation_refl.
    + apply perm_trans with (b :: a :: r).
      * apply perm_skip, IH.
      * apply perm_swap.
Qed.

Lemma sort_perm {A} (cmp : A -> A -> Q) (l : list A) :
  Permutation (JS.sort cmp l) l.
Proof.
  induction l as [|a r IH]; simpl.
  - apply perm_nil.
  - apply perm_trans with (a :: JS.sort cmp r).
    + apply sort_insert_perm.
    + apply perm_skip, IH.
Qed.

Lemma sort_insert_hd (a b : Diff.t) (l : list Diff.t) :
  sr_le b a -> HdRel sr_le b l -> HdRel sr_le b (JS.sort_insert by_sr a l).
Proof.
  intros Hba Hl. destruct l as [|c r]; simpl.
  - constructor. exact Hba.
  - destruct (Qle_bool (by_sr a c) 0).
    + constructor. exact Hba.
    + constructor. inversion Hl; assumption.
Qed.

Lemma sort_insert_sorted (a : Diff.t) (l : list Diff.t) :
  Sorted sr_le l -> Sorted sr_le (JS.sort_insert by_sr a l).
Proof.
  induction 1 as [|b r Hr IH Hb]; simpl.
  - repeat constructor.
  - destruct (Qle_bool (by_sr a b) 0) eqn:E.
    + constructor.
      * constructor; assumption.
      * constructor. apply by_sr_le, E.
    + constructor.
      * exact IH.
      * apply sort_insert_hd; [apply by_sr_gt, E | exact Hb].
Qed.

Lemma sort_sorted (l : list Diff.t) : Sorted sr_le (JS.sort by_sr l).
Proof.
  induction l as [|a r IH]; simpl.
  - constructor.
  - apply sort_insert_sorted, IH.
Qed.

Lemma make_diffs_sorted (mapData : list Beatmap.t) :
  Sorted sr_le (make_diffs mapData).
Proof. apply sort_sorted. Qed.

(** ** The rule blocks against the rules of the specification *)

Lemma filter_none {A} (p : A -> bool) (l : list A) :
  (List.length (filter p l) =? 0)%nat = negb (existsb p l).
Proof.
  induction l as [|a r IH]; simpl; [reflexivity|].
  destruct (p a); simpl; [reflexivity | exact IH].
Qed.

Lemma check_modes_rule map settings errors :
  check_modes map settings errors
  = (errors ++ Spec.category_rule map settings)%list.
Proof.
  unfold check_modes, Spec.category_rule, Spec.wrong_category, JS.includes.
  rewrite filter_none.
  destruct (negb (existsb _ (Map.diffs map))).
  - unfold Spec.category_message, JS.push, JS.join.
    destruct (Settings.modes settings) as [|c [|c' cs]]; reflexivity.
  - symmetry. apply app_nil_r.
Qed.

Lemma check_status_rule map settings errors :
  check_status map settings errors
  = (errors ++ Spec.status_rule map settings)%list.
Proof.
  unfold check_status, Spec.status_rule, isBN, ModderType.FULL,
    ModderType.PROBATION.
  destruct (_ && _); [reflexivity | symmetry; apply app_nil_r].
Qed.

Lemma check_creator_rule map req errors :
  check_creator map req errors
  = (errors ++ Spec.ownership_rule map (User.username (Req.user req)))%list.
Proof.
  unfold check_creator, Spec.ownership_rule.
  destruct (String.eqb _ _); [symmetry; apply app_nil_r | reflexivity].
Qed.

Lemma check_comment_rule map errors :
  check_comment map errors = (errors ++ Spec.comment_rule map)%list.
Proof.
  unfold check_comment, Spec.comment_rule.
  destruct (Nat.ltb_spec 500 (String.length (Map.comment map))),
           (Nat.leb_spec (String.length (Map.comment map)) 500);
    try lia; [reflexivity | symmetry; apply app_nil_r].
Qed.

Lemma check_open_rule settings errors :
  check_open settings errors = (errors ++ Spec.open_rule settings)%list.
Proof.
  unfold check_open, Spec.open_rule.
  destruct (Settings.open settings); [symmetry; apply app_nil_r | reflexivity].
Qed.

Lemma remaining_days_spec (settings : Settings.t) (diff : Z) :
  remaining_days (Spec.cooldownMs settings) diff
  = round (F64.div (F64.sub (Spec.cooldownMs settings) (inject_Z diff))
                   Spec.msPerDay).
Proof. unfold remaining_days. rewrite msPerDay_product. reflexivity. Qed.

Lemma check_cooldown_rule lastReq now settings errors :
  check_cooldown lastReq now settings errors
  = (errors ++ Spec.cooldown_rule lastReq now settings)%list.
Proof.
  unfold check_cooldown, Spec.cooldown_rule.
  destruct lastReq as [r|]; [|symmetry; apply app_nil_r].
  cbv zeta. fold (Spec.cooldownMs settings). unfold JS.lt.
  destruct (Qle_bool _ _); cbn [negb].
  - symmetry; apply app_nil_r.
  - rewrite remaining_days_spec. reflexivity.
Qed.

Lemma validate_rules map req settings lastReq now :
  User.username (Req.user req) <> Req.target req ->
  validate map req settings lastReq now
  = Spec.reasons map (User.username (Req.user req)) settings lastReq now.
Proof.
  intros Hne. unfold validate, Spec.reasons.
  apply String.eqb_neq in Hne. rewrite Hne.
  rewrite check_cooldown_rule, check_open_rule, check_comment_rule,
    check_creator_rule, check_status_rule, check_modes_rule.
  cbn [app]. rewrite <- !app_assoc. reflexivity.
Qed.

Lemma validate_owner map req settings lastReq now :
  User.username (Req.user req) = Req.target req ->
  validate map req settings lastReq now = [].
Proof.
  intros He. unfold validate. apply String.eqb_eq in He. rewrite He.
  reflexivity.
Qed.

(** ** The handler, case by case *)

Lemma handler_rejected env req db :
  getBeatmaps env = Rejected ->
  handler env req db = (Some (SendMapset EmptyObject ["Invalid beatmap ID"]), db).
Proof. intros H. unfold handler. rewrite H. reflexivity. Qed.

Lemma handler_empty env req db :
  getBeatmaps env = Resolved [] -> handler env req db = (None, db).
Proof. intros H. unfold handler. rewrite H. reflexivity. Qed.

Lemma handler_no_settings env req db first rest :
  getBeatmaps env = Resolved (first :: rest) ->
  find_settings (Req.target req) (db_settings db) = None ->
  handler env req db = (None, db).
Proof.
  intros H Hs. unfold handler. rewrite H.
  unfold bind, Settings_findOne, Request_findOne_latest. rewrite Hs.
  reflexivity.
Qed.

Lemma handler_refused env req db first rest settings :
  getBeatmaps env = Resolved (first :: rest) ->
  find_settings (Req.target req) (db_settings db) = Some settings ->
  validate (make_map first (first :: rest) req) req settings
    (latest_request (User.userid (Req.user req)) (Req.target req) (db_requests db))
    (now env) <> [] ->
  handler env req db
  = (Some (SendMap (MapObject (make_map first (first :: rest) req))
             (validate (make_map first (first :: rest) req) req settings
                (latest_request (User.userid (Req.user req)) (Req.target req)
                   (db_requests db))
                (now env))), db).
Proof.
  intros H Hs Hv. unfold handler. rewrite H.
  unfold bind, Settings_findOne, Request_findOne_latest. rewrite Hs.
  destruct (validate _ _ _ _ _); [congruence | reflexivity].
Qed.

Lemma handler_valid env req db first rest settings :
  getBeatmaps env = Resolved (first :: rest) ->
  find_settings (Req.target req) (db_settings db) = Some settings ->
  validate (make_map first (first :: rest) req) req settings
    (latest_request (User.userid (Req.user req)) (Req.target req) (db_requests db))
    (now env) = [] ->
  handler env req db
  = if save_ok env then
      if count_ok env then
        if (count_requests "Pending" (Req.target req)
              (db_requests db
                 ++ [new_Request (make_map first (first :: rest) req) req (now env)])
            >=? Settings.maxPending settings)%Z
        then
          if update_ok env then
            (Some (SendMap (RequestObject
                      (new_Request (make_map first (first :: rest) req) req
                         (now env))) []),
             mkDB (db_requests db
                     ++ [new_Request (make_map first (first :: rest) req) req
                           (now env)])
                  (update_first (Req.target req) (Settings.set_open false)
                     (db_settings db)))
          else
            (None,
             mkDB (db_requests db
                     ++ [new_Request (make_map first (first :: rest) req) req
                           (now env)])
                  (db_settings db))
        else
          (Some (SendMap (RequestObject
                    (new_Request (make_map first (first :: rest) req) req
                       (now env))) []),
           mkDB (db_requests db
                   ++ [new_Request (make_map first (first :: rest) req) req
                         (now env)])
                (db_settings db))
      else
        (None,
         mkDB (db_requests db
                 ++ [new_Request (make_map first (first :: rest) req) req
                       (now env)])
              (db_settings db))
    else (None, db).
Proof.
  intros H Hs Hv. unfold handler. rewrite H.
  unfold bind, Settings_findOne, Request_findOne_latest. rewrite Hs, Hv.
  cbn [List.length Nat.eqb negb]. unfold Request_save.
  destruct (save_ok env); [|reflexivity].
  unfold Request_countDocuments. destruct (count_ok env); [|reflexivity].
  cbn [db_requests db_settings].
  destruct (_ >=? _)%Z; [|reflexivity].
  unfold Settings_updateOne_open. destruct (update_ok env); reflexivity.
Qed.

(** The three ways a run with no reason left can end: nothing stored, the
    document stored and sent back, the document stored and no response. *)
Lemma handler_valid_cases env req db first rest settings :
  getBeatmaps env = Resolved (first :: rest) ->
  find_settings (Req.target req) (db_settings db) = Some settings ->
  validate (make_map first (first :: rest) req) req settings
    (latest_request (User.userid (Req.user req)) (Req.target req) (db_requests db))
    (now env) = [] ->
  (save_ok env = false /\ handler env req db = (None, db))
  \/ (save_ok env = true
      /\ handler env req db
         = (Some (SendMap (RequestObject
                     (new_Request (make_map first (first :: rest) req) req
                        (now env))) []),
            mkDB (db_requests db
                    ++ [new_Request (make_map first (first :: rest) req) req
                          (now env)])
                 (if (count_requests "Pending" (Req.target req)
                        (db_requests db
                           ++ [new_Request (make_map first (first :: rest) req)
                                 req (now env)])
                      >=? Settings.maxPending settings)%Z
                  then update_first (Req.target req) (Settings.set_open false)
                         (db_settings db)
                  else db_settings db)))
  \/ (save_ok env = true
      /\ (count_ok env = false \/ update_ok env = false)
      /\ handler env req db
         = (None,
            mkDB (db_requests db
                    ++ [new_Request (make_map first (first :: rest) req) req
                          (now env)])
                 (db_settings db))).
Proof.
  intros H Hs Hv. rewrite (handler_valid _ _ _ _ _ _ H Hs Hv).
  destruct (save_ok env); [|left; auto].
  destruct (count_ok env); [|right; right; auto].
  destruct (_ >=? _)%Z; [|right; left; auto].
  destruct (update_ok env); [right; left; auto | right; right; auto].
Qed.

Lemma handler_accepted env req db first rest settings :
  getBeatmaps env = Resolved (first :: rest) ->
  find_settings (Req.target req) (db_settings db) = Some settings ->
  validate (make_map first (first :: rest) req) req settings
    (latest_request (User.userid (Req.user req)) (Req.target req) (db_requests db))
    (now env) = [] ->
  save_ok env = true ->
  count_ok env = true ->
  update_ok env = true ->
  handler env req db
  = (Some (SendMap (RequestObject
                      (new_Request (make_map first (first :: rest) req) req (now env)))
                   []),
     mkDB (db_requests db
             ++ [new_Request (make_map first (first :: rest) req) req (now env)])
          (if (count_requests "Pending" (Req.target req)
                 (db_requests db
                    ++ [new_Request (make_map first (first :: rest) req) req (now env)])
               >=? Settings.maxPending settings)%Z
           then update_first (Req.target req) (Settings.set_open false)
                  (db_settings db)
           else db_settings db)).
Proof.
  intros H Hs Hv Hok Hc Hu. rewrite (handler_valid _ _ _ _ _ _ H Hs Hv).
  rewrite Hok, Hc, Hu. destruct (_ >=? _)%Z; reflexivity.
Qed.

Lemma handler_accepted_inv env req db request errors db' :
  handler env req db = (Some (SendMap (RequestObject request) errors), db') ->
  exists first rest settings,
    getBeatmaps env = Resolved (first :: rest)
    /\ find_settings (Req.target req) (db_settings db) = Some settings
    /\ save_ok env = true
    /\ request = new_Request (make_map first (first :: rest) req) req (now env)
    /\ errors = []
    /\ db' = mkDB (db_requests db ++ [request])
               (if (count_requests "Pending" (Req.target req)
                      (db_requests db ++ [request])
                    >=? Settings.maxPending settings)%Z
                then update_first (Req.target req) (Settings.set_open false)
                       (db_settings db)
                else db_settings db).
Proof.
  intros H.
  destruct (getBeatmaps env) as [|[|first rest]] eqn:Hl.
  - rewrite (handler_rejected _ _ _ Hl) in H. discriminate.
  - rewrite (handler_empty _ _ _ Hl) in H. discriminate.
  - destruct (find_settings (Req.target req) (db_settings db)) as [settings|] eqn:Hs.
    2:{ rewrite (handler_no_settings _ _ _ _ _ Hl Hs) in H. discriminate. }
    destruct (validate (make_map first (first :: rest) req) req settings
                (latest_request (User.userid (Req.user req)) (Req.target req)
                   (db_requests db)) (now env)) as [|e es] eqn:Hv.
    2:{ rewrite (handler_refused _ _ _ _ _ _ Hl Hs) in H
          by (rewrite Hv; discriminate).
        discriminate. }
    destruct (handler_valid_cases _ _ _ _ _ _ Hl Hs Hv)
      as [[Hok E] | [[Hok E] | (Hok & _ & E)]];
      rewrite E in H; [discriminate | | discriminate].
    injection H as Hr He Hd. subst request errors db'.
    exists first, rest, settings. repeat split; try reflexivity. exact Hok.
Qed.

(** ** Counting and finding stored documents *)

Lemma count_requests_app status target l1 l2 :
  count_requests status target (l1 ++ l2)
  = (count_requests status target l1 + count_requests status target l2)%Z.
Proof.
  unfold count_requests. rewrite filter_app, length_app. lia.
Qed.

Lemma count_requests_new map req now :
  count_requests "Pending" (Req.target req) [new_Request map req now] = 1%Z.
Proof.
  unfold count_requests. cbn [filter new_Request Request.status Request.target].
  rewrite (String.eqb_refl (Req.target req)). reflexivity.
Qed.

Lemma find_update_first owner f l :
  (forall s, Settings.owner (f s) = Settings.owner s) ->
  find_settings owner (update_first owner f l)
  = option_map f (find_settings owner l).
Proof.
  intros Hf. unfold find_settings.
  induction l as [|s r IH]; [reflexivity|].
  cbn [update_first find].
  destruct (String.eqb (Settings.owner s) owner) eqn:E; cbn [find].
  - rewrite Hf, E. reflexivity.
  - rewrite E. exact IH.
Qed.

Lemma later_date_le best r x :
  later best r = Some x ->
  (Request.requestDate r <= Request.requestDate x)%Z
  /\ (forall b, best = Some b ->
        (Request.requestDate b <= Request.requestDate x)%Z)
  /\ (x = r \/ best = Some x).
Proof.
  unfold later. destruct best as [b|].
  - destruct (Z.ltb_spec (Request.requestDate b) (Request.requestDate r));
      intros [= <-]; repeat split; try lia; auto;
      intros b' [= <-]; lia.
  - intros [= <-]. repeat split; try lia; auto. discriminate.
Qed.

Lemma later_some best r : exists x, later best r = Some x.
Proof.
  unfold later. destruct best as [b|]; [|eauto].
  destruct (_ <? _)%Z; eauto.
Qed.

Lemma fold_later_max l : forall best x,
  fold_left later l best = Some x ->
  (forall r, In r l -> (Request.requestDate r <= Request.requestDate x)%Z)
  /\ (forall b, best = Some b ->
        (Request.requestDate b <= Request.requestDate x)%Z)
  /\ (In x l \/ best = Some x).
Proof.
  induction l as [|a r IH]; intros best x H; cbn [fold_left] in H.
  - repeat split; [intros ? [] | intros b Hb; rewrite H in Hb; injection Hb as <-; lia | auto].
  - destruct (later_some best a) as [y Hy]. rewrite Hy in H.
    destruct (IH _ _ H) as (H1 & H2 & H3).
    destruct (later_date_le _ _ _ Hy) as (L1 & L2 & L3).
    specialize (H2 _ eq_refl).
    repeat split.
    + intros r' [<- | Hr']; [lia | apply H1, Hr'].
    + intros b Hb. specialize (L2 _ Hb). lia.
    + destruct H3 as [H3 | [= <-]].
      * left. right. exact H3.
      * destruct L3 as [-> | L3]; [left; left; reflexivity | right; exact L3].
Qed.

Lemma fold_later_none l : forall best,
  fold_left later l best = None -> l = [] /\ best = None.
Proof.
  induction l as [|a r IH]; intros best H; cbn [fold_left] in H.
  - auto.
  - destruct (later_some best a) as [y Hy]. rewrite Hy in H.
    destruct (IH _ H) as [_ Habs]. discriminate.
Qed.

(** ** Properties of the admission pipeline *)

(** C1. When the requester is not the owner of the target queue, the
    reasons the handler sends are the outcomes of the six rules, each
    evaluated on its own, concatenated in the order category, review
    status, ownership, comment length, open queue, cooldown; a non-empty
    list of reasons is sent back with the candidate and nothing is stored.
    In particular a candidate with no accepted category and a comment of
    more than 500 characters is refused with both reasons, the category
    reason first. *)
Theorem all_rules_reported env req db first rest settings :
  getBeatmaps env = Resolved (first :: rest) ->
  find_settings (Req.target req) (db_settings db) = Some settings ->
  User.username (Req.user req) <> Req.target req ->
  let map := make_map first (first :: rest) req in
  let lastReq := latest_request (User.userid (Req.user req)) (Req.target req)
                   (db_requests db) in
  let reasons := Spec.reasons map (User.username (Req.user req)) settings
                   lastReq (now env) in
  (forall resp, fst (handler env req db) = Some resp ->
                response_errors resp = reasons)
  /\ (reasons <> [] ->
      handler env req db = (Some (SendMap (MapObject map) reasons), db))
  /\ (Spec.wrong_category map settings = true ->
      (500 < String.length (Map.comment map))%nat ->
      handler env req db = (Some (SendMap (MapObject map) reasons), db)
      /\ exists between after,
           reasons = (Spec.category_message settings :: between
                        ++ "Comment is excessively long" :: after)%list).
Proof.
  intros Hl Hs Hne map lastReq reasons.
  assert (Hv : validate map req settings lastReq (now env) = reasons)
    by (apply validate_rules, Hne).
  assert (Hrefused : reasons <> [] ->
            handler env req db = (Some (SendMap (MapObject map) reasons), db)).
  { intros Hr. rewrite <- Hv in Hr.
    rewrite (handler_refused _ _ _ _ _ _ Hl Hs Hr). fold map lastReq.
    rewrite Hv. reflexivity. }
  assert (Hboth : Spec.wrong_category map settings = true ->
            (500 < String.length (Map.comment map))%nat ->
            exists between after,
              reasons = (Spec.category_message settings :: between
                           ++ "Comment is excessively long" :: after)%list).
  { intros Hc Hlen. unfold reasons, Spec.reasons, Spec.category_rule,
      Spec.comment_rule.
    rewrite Hc.
    destruct (Nat.leb_spec (String.length (Map.comment map)) 500); [lia|].
    exists (Spec.status_rule map settings
              ++ Spec.ownership_rule map (User.username (Req.user req)))%list,
           (Spec.open_rule settings
              ++ Spec.cooldown_rule lastReq (now env) settings)%list.
    cbn [app]. rewrite <- !app_assoc. reflexivity. }
  split; [|split].
  - intros resp Hresp.
    destruct reasons as [|e es] eqn:Hr.
    + destruct (handler_valid_cases _ _ _ _ _ _ Hl Hs Hv)
        as [[_ E] | [[_ E] | (_ & _ & E)]];
        rewrite E in Hresp; [discriminate | | discriminate].
      injection Hresp as <-. reflexivity.
    + rewrite Hrefused in Hresp by discriminate.
      injection Hresp as <-. reflexivity.
  - exact Hrefused.
  - intros Hc Hlen. destruct (Hboth Hc Hlen) as (between & after & E).
    split.
    + apply Hrefused. rewrite E. discriminate.
    + exists between, after. exact E.
Qed.

Lemma all_rules_reported_witness :
  getBeatmaps (Sample.env_at Sample.day) = Resolved (Sample.hard :: [Sample.easy])
  /\ find_settings (Req.target Sample.req_long) (db_settings Sample.db_taiko)
     = Some Sample.taiko_settings
  /\ User.username (Req.user Sample.req_long) <> Req.target Sample.req_long
  /\ handler (Sample.env_at Sample.day) Sample.req_long Sample.db_taiko
     = (Some (SendMap
                (MapObject (make_map Sample.hard Sample.mapData Sample.req_long))
                ["Only Taiko maps are accepted";
                 "Expected a Pending map (this is Ranked)";
                 "Comment is excessively long";
                 "Requests are closed";
                 "You need to wait 6 days before you can request again"]),
        Sample.db_taiko).
Proof.
  assert (H1 : getBeatmaps (Sample.env_at Sample.day)
               = Resolved (Sample.hard :: [Sample.easy])) by reflexivity.
  assert (H2 : find_settings (Req.target Sample.req_long)
                 (db_settings Sample.db_taiko) = Some Sample.taiko_settings)
    by reflexivity.
  assert (H3 : User.username (Req.user Sample.req_long)
               <> Req.target Sample.req_long) by discriminate.
  refine (conj H1 (conj H2 (conj H3 _))).
  refine (proj1 (proj2 (proj2
            (all_rules_reported _ _ _ _ _ _ H1 H2 H3)) _ _)).
  - reflexivity.
  - apply le_n.
Defined.

(** C2. When the requester is the owner of the target queue, every response
    of an evaluated submission carries an empty list of reasons, whatever
    the six rules found; and if the store accepts the write, the submission
    is stored, and it is answered with the stored document when the count
    and the write of the settings that follow succeed. *)
Theorem owner_bypass env req db first rest settings :
  getBeatmaps env = Resolved (first :: rest) ->
  find_settings (Req.target req) (db_settings db) = Some settings ->
  User.username (Req.user req) = Req.target req ->
  (forall resp, fst (handler env req db) = Some resp -> response_errors resp = [])
  /\ (save_ok env = true ->
      exists request,
        db_requests (snd (handler env req db)) = (db_requests db ++ [request])%list
        /\ (count_ok env = true -> update_ok env = true ->
            fst (handler env req db) = Some (SendMap (RequestObject request) []))).
Proof.
  intros Hl Hs He.
  pose proof (validate_owner (make_map first (first :: rest) req) req settings
                (latest_request (User.userid (Req.user req)) (Req.target req)
                   (db_requests db)) (now env) He) as Hv.
  split.
  - intros resp Hresp.
    destruct (handler_valid_cases _ _ _ _ _ _ Hl Hs Hv)
      as [[_ E] | [[_ E] | (_ & _ & E)]];
      rewrite E in Hresp; [discriminate | | discriminate].
    injection Hresp as <-. reflexivity.
  - intros Hok.
    exists (new_Request (make_map first (first :: rest) req) req (now env)).
    split.
    + destruct (handler_valid_cases _ _ _ _ _ _ Hl Hs Hv)
        as [[Hno E] | [[_ E] | (_ & _ & E)]]; [congruence | |];
        rewrite E; reflexivity.
    + intros Hc Hu.
      rewrite (handler_accepted _ _ _ _ _ _ Hl Hs Hv Hok Hc Hu). reflexivity.
Qed.

Lemma owner_bypass_witness :
  getBeatmaps (Sample.env_at Sample.day) = Resolved (Sample.hard :: [Sample.easy])
  /\ find_settings (Req.target Sample.req_self) (db_settings Sample.db_taiko)
     = Some Sample.taiko_settings
  /\ User.username (Req.user Sample.req_self) = Req.target Sample.req_self
  /\ Spec.reasons (make_map Sample.hard Sample.mapData Sample.req_self) "bob"
       Sample.taiko_settings None Sample.day
     = ["Only Taiko maps are accepted";
        "Expected a Pending map (this is Ranked)";
        "This map isn't yours";
        "Comment is excessively long";
        "Requests are closed"]
  /\ forall resp,
       fst (handler (Sample.env_at Sample.day) Sample.req_self Sample.db_taiko)
       = Some resp ->
       response_errors resp = [].
Proof.
  refine (conj eq_refl (conj eq_refl (conj eq_refl (conj eq_refl _)))).
  apply (proj1 (owner_bypass (Sample.env_at Sample.day) Sample.req_self
                  Sample.db_taiko Sample.hard [Sample.easy] Sample.taiko_settings
                  eq_refl eq_refl eq_refl)).
Defined.



(** C6, as the handler has it. When the time elapsed since the most recent
    prior request equals the cooldown period, the cooldown block appends
    nothing. When it is one millisecond short of the period, the block
    appends a reason, and the remaining wait it reports is 0 days: one
    millisecond rounds to 0.00 days, so the reason reads "You need to wait 0
    days before you can request again". *)
Theorem cooldown_boundary (lastReq : Request.t) (now : Z)
  (settings : Settings.t) (errors : list string) :
  let elapsedMs := inject_Z (now - Request.requestDate lastReq) in
  let cooldownMs :=
    F64.mul (F64.mul (F64.mul (Settings.cooldown settings) 24) 3600) 1000 in
  (elapsedMs == cooldownMs ->
   check_cooldown (Some lastReq) now settings errors = errors)
  /\ (elapsedMs == cooldownMs - 1 ->
      check_cooldown (Some lastReq) now settings errors
      = (errors ++ ["You need to wait 0 days before you can request again"])%list
      /\ remaining_days cooldownMs (now - Request.requestDate lastReq) == 0).
Proof.
  intros elapsedMs cooldownMs.
  unfold check_cooldown. cbv zeta. fold elapsedMs cooldownMs.
  clearbody cooldownMs.
  split; intros He.
  - assert (Hc : JS.lt elapsedMs cooldownMs = false)
      by (apply lt_false; rewrite He; apply Qle_refl).
    rewrite Hc. reflexivity.
  - assert (Hr : remaining_days cooldownMs (now - Request.requestDate lastReq)
                 = round (F64.div (F64.rnd 1) Spec.msPerDay)).
    { unfold remaining_days. fold elapsedMs. rewrite msPerDay_product.
      unfold F64.sub.
      rewrite (rnd_comp (cooldownMs - elapsedMs) 1) by (rewrite He; ring).
      reflexivity. }
    split.
    + assert (Hc : JS.lt elapsedMs cooldownMs = true).
      { apply lt_spec. rewrite He. rewrite <- (Qplus_0_r cooldownMs) at 2.
        unfold Qminus. apply Qplus_lt_r. reflexivity. }
      rewrite Hc, Hr. vm_compute. reflexivity.
    + rewrite Hr. vm_compute. reflexivity.
Qed.

Lemma cooldown_boundary_witness :
  inject_Z (Sample.day - 1 - Request.requestDate (Sample.old_request true 0))
  == F64.mul (F64.mul (F64.mul (Settings.cooldown Sample.bob_settings) 24)
                3600) 1000 - 1
  /\ check_cooldown (Some (Sample.old_request true 0)) (Sample.day - 1)
       Sample.bob_settings []
     = ["You need to wait 0 days before you can request again"].
Proof.
  assert (He : inject_Z (Sample.day - 1
                         - Request.requestDate (Sample.old_request true 0))
               == F64.mul (F64.mul (F64.mul
                    (Settings.cooldown Sample.bob_settings) 24) 3600) 1000 - 1)
    by (vm_compute; reflexivity).
  refine (conj He _).
  exact (proj1 (proj2 (cooldown_boundary (Sample.old_request true 0)
                         (Sample.day - 1) Sample.bob_settings []) He)).
Defined.

(** C6 as the specification words it fails one millisecond before the end
    of a one-day cooldown: a reason is emitted, but the remaining wait it
    reports is not greater than 0. *)
Lemma cooldown_boundary_counterexample :
  inject_Z (86399999 - Request.requestDate (Sample.old_request false 0))
  == F64.mul (F64.mul (F64.mul (Settings.cooldown Sample.bob_settings) 24)
                3600) 1000 - 1
  /\ check_cooldown (Some (Sample.old_request false 0)) 86399999
       Sample.bob_settings []
     = ["You need to wait 0 days before you can request again"]
  /\ ~ 0 < remaining_days
             (F64.mul (F64.mul (F64.mul (Settings.cooldown Sample.bob_settings)
                                  24) 3600) 1000)
             (86399999 - Request.requestDate (Sample.old_request false 0)).
Proof.
  split; [vm_compute; reflexivity|]. split; [vm_compute; reflexivity|].
  apply Qle_not_lt. vm_compute. discriminate.
Qed.

(** C4, as the handler has it. The count is the number of stored documents
    of the target whose status is "Pending", archived or not. The settings
    are written only in a run that has stored a new document and answered
    with it. In such a run: if the count before the run is maxPending - 1,
    the target's open flag is false afterwards; if it is below
    maxPending - 1, the settings are left as they were. *)
Theorem capacity_boundary env req db :
  (db_settings (snd (handler env req db)) <> db_settings db ->
   exists request,
     fst (handler env req db) = Some (SendMap (RequestObject request) [])
     /\ db_requests (snd (handler env req db))
        = (db_requests db ++ [request])%list)
  /\ (forall settings request errors db',
        find_settings (Req.target req) (db_settings db) = Some settings ->
        handler env req db = (Some (SendMap (RequestObject request) errors), db') ->
        let pending :=
          Z.of_nat
            (List.length
               (filter (fun r => String.eqb (Request.status r) "Pending"
                                 && String.eqb (Request.target r) (Req.target req))
                       (db_requests db))) in
        db_requests db' = (db_requests db ++ [request])%list
        /\ (pending = (Settings.maxPending settings - 1)%Z ->
            queue_open (Req.target req) db' = Some false)
        /\ ((pending < Settings.maxPending settings - 1)%Z ->
            db_settings db' = db_settings db)).
Proof.
  split.
  - intros Hch.
    destruct (getBeatmaps env) as [|[|first rest]] eqn:Hl.
    + rewrite (handler_rejected _ _ _ Hl) in Hch. contradiction Hch; reflexivity.
    + rewrite (handler_empty _ _ _ Hl) in Hch. contradiction Hch; reflexivity.
    + destruct (find_settings (Req.target req) (db_settings db))
        as [settings|] eqn:Hs.
      2:{ rewrite (handler_no_settings _ _ _ _ _ Hl Hs) in Hch.
          contradiction Hch; reflexivity. }
      destruct (validate (make_map first (first :: rest) req) req settings
                  (latest_request (User.userid (Req.user req)) (Req.target req)
                     (db_requests db)) (now env)) as [|e es] eqn:Hv.
      2:{ rewrite (handler_refused _ _ _ _ _ _ Hl Hs) in Hch
            by (rewrite Hv; discriminate).
          contradiction Hch; reflexivity. }
      destruct (handler_valid_cases _ _ _ _ _ _ Hl Hs Hv)
        as [[_ E] | [[_ E] | (_ & _ & E)]]; rewrite E in *.
      * contradiction Hch; reflexivity.
      * eexists. split; reflexivity.
      * contradiction Hch; reflexivity.
  - intros settings request errors db' Hs H pending.
    destruct (handler_accepted_inv _ _ _ _ _ _ H)
      as (first & rest & settings' & Hl & Hs' & Hok & Hr & He & Hd).
    rewrite Hs in Hs'. injection Hs' as <-.
    assert (Hc : count_requests "Pending" (Req.target req)
                   (db_requests db ++ [request]) = (pending + 1)%Z).
    { rewrite count_requests_app, Hr, count_requests_new. reflexivity. }
    rewrite Hc in Hd. subst db'. cbn [db_requests db_settings].
    split; [reflexivity|]. split; intros Hp.
    + destruct (Z.geb_spec (pending + 1) (Settings.maxPending settings)); [|lia].
      unfold queue_open. cbn [db_settings].
      rewrite find_update_first by reflexivity. rewrite Hs. reflexivity.
    + destruct (Z.geb_spec (pending + 1) (Settings.maxPending settings)); [lia|].
      reflexivity.
Qed.

Lemma capacity_boundary_witness :
  find_settings (Req.target Sample.req_to_bob) (db_settings Sample.db_one_archived)
  = Some Sample.bob_settings
  /\ Z.of_nat
       (List.length
          (filter (fun r => String.eqb (Request.status r) "Pending"
                            && String.eqb (Request.target r) "bob")
                  (db_requests Sample.db_one_archived)))
     = (Settings.maxPending Sample.bob_settings - 1)%Z
  /\ queue_open "bob" Sample.db_one_archived = Some true
  /\ queue_open "bob"
       (snd (handler (Sample.env_at (2 * Sample.day)) Sample.req_to_bob
               Sample.db_one_archived))
     = Some false.
Proof.
  assert (H : handler (Sample.env_at (2 * Sample.day)) Sample.req_to_bob
                Sample.db_one_archived
              = (Some (SendMap
                         (RequestObject
                            (new_Request
                               (make_map Sample.hard Sample.mapData
                                  Sample.req_to_bob)
                               Sample.req_to_bob (2 * Sample.day))) []),
                 snd (handler (Sample.env_at (2 * Sample.day))
                        Sample.req_to_bob Sample.db_one_archived)))
    by (vm_compute; reflexivity).
  refine (conj eq_refl (conj eq_refl (conj eq_refl _))).
  exact (proj1 (proj2 (proj2 (capacity_boundary (Sample.env_at (2 * Sample.day))
                                Sample.req_to_bob Sample.db_one_archived)
                         Sample.bob_settings _ _ _ eq_refl H))
           eq_refl).
Defined.

(** C4 as the specification words it, with the pending count of its section
    4.2 (non-archived documents of the target with status "Pending"), fails
    on a queue whose only pending document is archived and whose maxPending
    is 2: the count is 0, below maxPending - 1, and yet the accepted
    submission closes the queue. *)
Lemma capacity_boundary_counterexample :
  (Spec.pending_count "bob" (db_requests Sample.db_one_archived)
   < Settings.maxPending Sample.bob_settings - 1)%Z
  /\ fst (handler (Sample.env_at (2 * Sample.day)) Sample.req_to_bob
            Sample.db_one_archived)
     = Some (SendMap
               (RequestObject
                  (new_Request
                     (make_map Sample.hard Sample.mapData Sample.req_to_bob)
                     Sample.req_to_bob (2 * Sample.day))) [])
  /\ queue_open "bob" Sample.db_one_archived = Some true
  /\ queue_open "bob"
       (snd (handler (Sample.env_at (2 * Sample.day)) Sample.req_to_bob
               Sample.db_one_archived))
     <> Some true.
Proof.
  split; [reflexivity|]. split; [vm_compute; reflexivity|].
  split; [reflexivity|]. vm_compute. discriminate.
Qed.

(** C5. When the provider's lookup fails, or answers with no beatmap at all,
    the client rejects, and the handler answers with an empty object and
    the single reason "Invalid beatmap ID"; the store is left as it was, so
    no request is stored. *)
Theorem lookup_failure answer env req db :
  getBeatmaps env = osuApi_getBeatmaps answer ->
  answer = Failed \/ answer = Answered [] ->
  handler env req db
  = (Some (SendMapset EmptyObject ["Invalid beatmap ID"]), db).
Proof.
  intros Hc [-> | ->]; apply handler_rejected; exact Hc.
Qed.

Lemma lookup_failure_witness :
  handler (mkEnv (osuApi_getBeatmaps (Answered [])) 0 true true true) Sample.req_to_bob
    Sample.db_empty
  = (Some (SendMapset EmptyObject ["Invalid beatmap ID"]), Sample.db_empty)
  /\ handler (mkEnv (osuApi_getBeatmaps Failed) 0 true true true) Sample.req_to_bob
       Sample.db_empty
     = (Some (SendMapset EmptyObject ["Invalid beatmap ID"]), Sample.db_empty).
Proof.
  split.
  - exact (lookup_failure (Answered [])
             (mkEnv (osuApi_getBeatmaps (Answered [])) 0 true true true)
             Sample.req_to_bob Sample.db_empty eq_refl (or_intror eq_refl)).
  - exact (lookup_failure Failed (mkEnv (osuApi_getBeatmaps Failed) 0 true true true)
             Sample.req_to_bob Sample.db_empty eq_refl (or_introl eq_refl)).
Defined.




(** ** The candidate's variants *)

Lemma round_hundredths (x : Q) : rounded_to_hundredths x (round x).
Proof.
  destruct (Math_round_bounds (F64.mul x 100)) as [Hle Hlt].
  exists (JS.Math_round (F64.mul x 100)).
  split; [reflexivity | split; assumption].
Qed.

Lemma make_diffs_rounded (mapData : list Beatmap.t) :
  Forall (fun d => exists diff,
            In diff mapData
            /\ Diff.name d = Beatmap.version diff
            /\ Diff.mode d = Beatmap.mode diff
            /\ rounded_to_hundredths (Beatmap.difficulty_rating diff) (Diff.sr d))
         (make_diffs mapData).
Proof.
  apply Forall_forall. intros d Hd.
  apply (Permutation_in _ (sort_perm by_sr _)) in Hd.
  apply in_map_iff in Hd. destruct Hd as (diff & <- & Hin).
  exists diff. repeat split; try assumption. apply round_hundredths.
Qed.

Lemma payload_diffs env req db resp :
  fst (handler env req db) = Some resp ->
  match response_payload resp with
  | EmptyObject => True
  | MapObject map =>
      exists first rest, Map.diffs map = make_diffs (first :: rest)
  | RequestObject request =>
      exists first rest, Request.diffs request = make_diffs (first :: rest)
  end.
Proof.
  intros H.
  destruct (getBeatmaps env) as [|[|first rest]] eqn:Hl.
  - rewrite (handler_rejected _ _ _ Hl) in H. injection H as <-. exact I.
  - rewrite (handler_empty _ _ _ Hl) in H. discriminate.
  - destruct (find_settings (Req.target req) (db_settings db))
      as [settings|] eqn:Hs.
    2:{ rewrite (handler_no_settings _ _ _ _ _ Hl Hs) in H. discriminate. }
    destruct (validate (make_map first (first :: rest) req) req settings
                (latest_request (User.userid (Req.user req)) (Req.target req)
                   (db_requests db)) (now env)) as [|e es] eqn:Hv.
    + destruct (handler_valid_cases _ _ _ _ _ _ Hl Hs Hv)
        as [[_ E] | [[_ E] | (_ & _ & E)]];
        rewrite E in H; [discriminate | | discriminate].
      injection H as <-. exists first, rest. reflexivity.
    + rewrite (handler_refused _ _ _ _ _ _ Hl Hs) in H
        by (rewrite Hv; discriminate).
      injection H as <-. exists first, rest. reflexivity.
Qed.

(** C8. The variants of a candidate built from a lookup result are the
    variants of the result, reordered so that the ratings are
    non-decreasing, each with its rating rounded to two decimals before the
    sort: the rating is the double nearest to a whole number of hundredths,
    and that whole number is the integer nearest to 100 times the rating of
    the result. Whatever candidate or stored document the handler sends
    back, its variants are in that order and have such ratings. *)
Theorem diffs_sorted :
  (forall first rest req,
     let map := make_map first (first :: rest) req in
     Sorted sr_le (Map.diffs map)
     /\ Permutation (Map.diffs map)
          (List.map (fun diff => Diff.mk (Beatmap.version diff) (Beatmap.mode diff)
                                   (round (Beatmap.difficulty_rating diff)))
                    (first :: rest))
     /\ Forall (fun d => exists diff,
                  In diff (first :: rest)
                  /\ Diff.name d = Beatmap.version diff
                  /\ Diff.mode d = Beatmap.mode diff
                  /\ rounded_to_hundredths (Beatmap.difficulty_rating diff)
                       (Diff.sr d))
               (Map.diffs map))
  /\ (forall env req db resp,
        fst (handler env req db) = Some resp ->
        match response_payload resp with
        | EmptyObject => True
        | MapObject map =>
            Sorted sr_le (Map.diffs map)
            /\ Forall (fun d => exists n : Z, Diff.sr d = F64.div (inject_Z n) 100)
                      (Map.diffs map)
        | RequestObject request =>
            Sorted sr_le (Request.diffs request)
            /\ Forall (fun d => exists n : Z, Diff.sr d = F64.div (inject_Z n) 100)
                      (Request.diffs request)
        end).
Proof.
  assert (Hn : forall mapData,
             Forall (fun d => exists n : Z, Diff.sr d = F64.div (inject_Z n) 100)
                    (make_diffs mapData)).
  { intros mapData. eapply Forall_impl; [|apply make_diffs_rounded].
    intros d (diff & _ & _ & _ & n & Hn & _). exists n. exact Hn. }
  split.
  - intros first rest req map. split; [apply make_diffs_sorted|].
    split; [apply (sort_perm by_sr) | apply make_diffs_rounded].
  - intros env req db resp H. pose proof (payload_diffs _ _ _ _ H) as P.
    destruct (response_payload resp) as [|map|request]; [exact I | |];
      destruct P as (first & rest & ->);
      (split; [apply make_diffs_sorted | apply Hn]).
Qed.

Lemma diffs_sorted_witness :
  fst (handler (Sample.env_at (2 * Sample.day)) Sample.req_to_bob Sample.db_empty)
  = Some (SendMap (RequestObject
                     (new_Request (make_map Sample.hard Sample.mapData
                                     Sample.req_to_bob)
                        Sample.req_to_bob (2 * Sample.day))) [])
  /\ Sorted sr_le [Diff.mk "Easy" "Standard" (F64.div 151 100);
                   Diff.mk "Insane" "Standard" (F64.div 512 100)].
Proof.
  assert (H : fst (handler (Sample.env_at (2 * Sample.day)) Sample.req_to_bob
                     Sample.db_empty)
              = Some (SendMap (RequestObject
                                 (new_Request (make_map Sample.hard Sample.mapData
                                                 Sample.req_to_bob)
                                    Sample.req_to_bob (2 * Sample.day))) []))
    by (vm_compute; reflexivity).
  refine (conj H _).
  assert (E : Request.diffs
                (new_Request (make_map Sample.hard Sample.mapData
                                Sample.req_to_bob)
                   Sample.req_to_bob (2 * Sample.day))
              = [Diff.mk "Easy" "Standard" (F64.div 151 100);
                 Diff.mk "Insane" "Standard" (F64.div 512 100)])
    by (vm_compute; reflexivity).
  rewrite <- E.
  exact (proj1 (proj2 diffs_sorted (Sample.env_at (2 * Sample.day))
                  Sample.req_to_bob Sample.db_empty _ H)).
Defined.

(** ** Rounding *)




(** ** The archived flag *)

Lemma filter_map_commute {A B} (g : A -> B) (p : B -> bool) (q : A -> bool)
  (l : list A) :
  (forall a, p (g a) = q a) ->
  filter p (List.map g l) = List.map g (filter q l).
Proof.
  intros H. induction l as [|a r IH]; [reflexivity|].
  cbn [List.map filter]. rewrite H, IH. destruct (q a); reflexivity.
Qed.

Lemma count_requests_rearchive status target flag docs :
  count_requests status target
    (List.map (fun r => set_archived (flag r) r) docs)
  = count_requests status target docs.
Proof.
  unfold count_requests.
  rewrite (filter_map_commute _ _
             (fun r => String.eqb (Request.status r) status
                       && String.eqb (Request.target r) target))
    by reflexivity.
  rewrite length_map. reflexivity.
Qed.

Lemma later_rearchive (g : Request.t -> Request.t) best r :
  (forall x, Request.requestDate (g x) = Request.requestDate x) ->
  later (option_map g best) (g r) = option_map g (later best r).
Proof.
  intros Hg. unfold later. destruct best as [b|]; cbn [option_map].
  - rewrite !Hg. destruct (_ <? _)%Z; reflexivity.
  - reflexivity.
Qed.

Lemma fold_later_rearchive (g : Request.t -> Request.t) l :
  (forall x, Request.requestDate (g x) = Request.requestDate x) ->
  forall best,
    fold_left later (List.map g l) (option_map g best)
    = option_map g (fold_left later l best).
Proof.
  intros Hg. induction l as [|a r IH]; intros best; [reflexivity|].
  cbn [List.map fold_left]. rewrite later_rearchive by exact Hg. apply IH.
Qed.

Lemma latest_request_rearchive user target flag docs :
  latest_request user target (List.map (fun r => set_archived (flag r) r) docs)
  = option_map (fun r => set_archived (flag r) r)
      (latest_request user target docs).
Proof.
  unfold latest_request.
  rewrite (filter_map_commute _ _
             (fun r => (Request.user r =? user)%Z
                       && String.eqb (Request.target r) target))
    by reflexivity.
  apply (fold_later_rearchive (fun r => set_archived (flag r) r) _
           (fun x => eq_refl) None).
Qed.

Lemma check_cooldown_rearchive (g : Request.t -> Request.t) lastReq now
  settings errors :
  (forall x, Request.requestDate (g x) = Request.requestDate x) ->
  check_cooldown (option_map g lastReq) now settings errors
  = check_cooldown lastReq now settings errors.
Proof.
  intros Hg. destruct lastReq as [r|]; [|reflexivity].
  unfold check_cooldown. cbn [option_map]. rewrite Hg. reflexivity.
Qed.

Lemma validate_rearchive (g : Request.t -> Request.t) map req settings
  lastReq now :
  (forall x, Request.requestDate (g x) = Request.requestDate x) ->
  validate map req settings (option_map g lastReq) now
  = validate map req settings lastReq now.
Proof.
  intros Hg. unfold validate. rewrite check_cooldown_rearchive by exact Hg.
  reflexivity.
Qed.

Lemma handler_rearchive env req db flag :
  fst (handler env req (rearchive flag db)) = fst (handler env req db)
  /\ db_settings (snd (handler env req (rearchive flag db)))
     = db_settings (snd (handler env req db)).
Proof.
  destruct (getBeatmaps env) as [|[|first rest]] eqn:Hl.
  - rewrite !(handler_rejected _ _ _ Hl). split; reflexivity.
  - rewrite !(handler_empty _ _ _ Hl). split; reflexivity.
  - destruct (find_settings (Req.target req) (db_settings db))
      as [settings|] eqn:Hs.
    2:{ rewrite (handler_no_settings _ _ db _ _ Hl Hs).
        rewrite (handler_no_settings _ _ (rearchive flag db) _ _ Hl Hs).
        split; reflexivity. }
    pose proof (validate_rearchive (fun r => set_archived (flag r) r)
                  (make_map first (first :: rest) req) req settings
                  (latest_request (User.userid (Req.user req))
                     (Req.target req) (db_requests db))
                  (now env) (fun x => eq_refl)) as Hv'.
    rewrite <- latest_request_rearchive in Hv'.
    change (List.map (fun r => set_archived (flag r) r) (db_requests db))
      with (db_requests (rearchive flag db)) in Hv'.
    destruct (validate (make_map first (first :: rest) req) req settings
                (latest_request (User.userid (Req.user req)) (Req.target req)
                   (db_requests db)) (now env)) as [|e es] eqn:Hv.
    + rewrite (handler_valid _ _ db _ _ _ Hl Hs Hv).
      rewrite (handler_valid _ _ (rearchive flag db) _ _ _ Hl Hs Hv').
      cbn [db_settings db_requests rearchive].
      rewrite !count_requests_app, count_requests_rearchive.
      destruct (save_ok env); [|split; reflexivity].
      destruct (count_ok env); [|split; reflexivity].
      destruct (_ >=? _)%Z; [|split; reflexivity].
      destruct (update_ok env); split; reflexivity.
    + rewrite (handler_refused _ _ db _ _ _ Hl Hs)
        by (rewrite Hv; discriminate).
      rewrite (handler_refused _ _ (rearchive flag db) _ _ _ Hl Hs)
        by (rewrite Hv'; discriminate).
      rewrite Hv, Hv'. split; reflexivity.
Qed.

(** C10. The count behind the capacity check is the number of stored
    documents of the target whose status is "Pending", whatever their
    [archived] flags. After an accepted submission the queue is closed
    exactly when that number, with the new document, has reached
    maxPending; rewriting the flags of the stored documents in any way
    changes neither the number, nor the response of the handler, nor the
    settings it leaves; and when every stored pending document of the
    target is archived, they still close the queue. *)
Theorem pending_count_ignores_archived env req db request errors db'
  settings :
  find_settings (Req.target req) (db_settings db) = Some settings ->
  handler env req db = (Some (SendMap (RequestObject request) errors), db') ->
  let pending docs :=
    Z.of_nat
      (List.length
         (filter (fun r => String.eqb (Request.status r) "Pending"
                           && String.eqb (Request.target r) (Req.target req))
                 docs)) in
  ((Settings.maxPending settings <= pending (db_requests db) + 1)%Z ->
   queue_open (Req.target req) db' = Some false)
  /\ ((pending (db_requests db) + 1 < Settings.maxPending settings)%Z ->
      db_settings db' = db_settings db)
  /\ (forall flag,
        pending (db_requests (rearchive flag db)) = pending (db_requests db)
        /\ fst (handler env req (rearchive flag db)) = fst (handler env req db)
        /\ db_settings (snd (handler env req (rearchive flag db)))
           = db_settings (snd (handler env req db)))
  /\ ((Settings.maxPending settings
       <= pending (filter Request.archived (db_requests db)) + 1)%Z ->
      queue_open (Req.target req) db' = Some false).
Proof.
  intros Hs H pending.
  assert (Hp : forall docs,
             pending docs = count_requests "Pending" (Req.target req) docs)
    by reflexivity.
  assert (Hclose : (Settings.maxPending settings
                    <= pending (db_requests db) + 1)%Z ->
                   queue_open (Req.target req) db' = Some false).
  { intros Hfull.
    destruct (handler_accepted_inv _ _ _ _ _ _ H)
      as (first & rest & settings' & Hl & Hs' & Hok & Hr & He & Hd).
    rewrite Hs in Hs'. injection Hs' as <-.
    rewrite Hd. unfold queue_open. cbn [db_settings].
    rewrite count_requests_app, Hr, count_requests_new, <- Hp.
    destruct (Z.geb_spec (pending (db_requests db) + 1)
                (Settings.maxPending settings)); [|lia].
    rewrite find_update_first by reflexivity. rewrite Hs. reflexivity. }
  split; [exact Hclose|]. split; [|split].
  - intros Hroom.
    destruct (handler_accepted_inv _ _ _ _ _ _ H)
      as (first & rest & settings' & Hl & Hs' & Hok & Hr & He & Hd).
    rewrite Hs in Hs'. injection Hs' as <-.
    rewrite Hd. cbn [db_settings].
    rewrite count_requests_app, Hr, count_requests_new, <- Hp.
    destruct (Z.geb_spec (pending (db_requests db) + 1)
                (Settings.maxPending settings)); [lia | reflexivity].
  - intros flag. split.
    + rewrite !Hp. apply count_requests_rearchive.
    + apply handler_rearchive.
  - intros Hfull. apply Hclose.
    assert (Hle : (pending (filter Request.archived (db_requests db))
                   <= pending (db_requests db))%Z).
    { unfold pending. apply Nat2Z.inj_le.
      generalize (db_requests db). intros l.
      induction l as [|r l IH]; [apply Nat.le_refl|].
      cbn [filter]. destruct (Request.archived r); cbn [filter];
        destruct (_ && _); cbn [List.length]; lia. }
    lia.
Qed.

Lemma pending_count_ignores_archived_witness :
  Forall (fun r => Request.archived r = true)
    (db_requests Sample.db_one_archived)
  /\ queue_open "bob" Sample.db_one_archived = Some true
  /\ queue_open "bob"
       (snd (handler (Sample.env_at (2 * Sample.day)) Sample.req_to_bob
               Sample.db_one_archived))
     = Some false.
Proof.
  assert (H : handler (Sample.env_at (2 * Sample.day)) Sample.req_to_bob
                Sample.db_one_archived
              = (Some (SendMap
                         (RequestObject
                            (new_Request
                               (make_map Sample.hard Sample.mapData
                                  Sample.req_to_bob)
                               Sample.req_to_bob (2 * Sample.day))) []),
                 snd (handler (Sample.env_at (2 * Sample.day))
                        Sample.req_to_bob Sample.db_one_archived)))
    by (vm_compute; reflexivity).
  split; [repeat constructor|]. split; [reflexivity|].
  apply (proj2 (proj2 (proj2
           (pending_count_ignores_archived (Sample.env_at (2 * Sample.day))
              Sample.req_to_bob Sample.db_one_archived _ _ _
              Sample.bob_settings eq_refl H)))).
  vm_compute. discriminate.
Defined.

(** ** More on [round] *)


(** X3. [round] keeps the order of numbers. *)
Theorem round_monotone (x y : Q) : x <= y -> round x <= round y.
Proof.
  intros H. unfold round, F64.div, F64.mul, JS.Math_round.
  apply rnd_monotone. apply Qmult_le_r; [reflexivity|].
  rewrite <- Zle_Qle. apply Qfloor_resp_le, Qplus_le_l, rnd_monotone.
  apply Qmult_le_r; [reflexivity | exact H].
Qed.

Lemma round_monotone_witness :
  1507 # 1000 <= 5123 # 1000 /\ round (1507 # 1000) <= round (5123 # 1000).
Proof.
  assert (H : 1507 # 1000 <= 5123 # 1000) by discriminate.
  exact (conj H (round_monotone _ _ H)).
Defined.

(** ** [formatTime] *)

Lemma length_append (s t : string) :
  String.length (s ++ t) = (String.length s + String.length t)%nat.
Proof. induction s as [|c s IH]; cbn; [reflexivity | rewrite IH; reflexivity]. Qed.

Lemma seconds_two_digits (s : Z) :
  (0 <= s < 60)%Z ->
  ((if (s <? 10)%Z then "0" else "") ++ JS.Z_toString s)%string = two_digits s.
Proof.
  intros Hs.
  assert (H : forallb (fun n =>
                String.eqb ((if (Z.of_nat n <? 10)%Z then "0" else "")
                              ++ JS.Z_toString (Z.of_nat n))
                           (two_digits (Z.of_nat n)))
                (seq 0 60) = true) by (vm_compute; reflexivity).
  rewrite forallb_forall in H.
  specialize (H (Z.to_nat s)). rewrite Z2Nat.id in H by lia.
  apply String.eqb_eq, H, in_seq. lia.
Qed.

Lemma rem_nonneg (time : Z) :
  (0 <= time)%Z -> JS.rem time 60 = (time mod 60)%Z.
Proof. intros H. unfold JS.rem. apply Z.rem_mod_nonneg; lia. Qed.

Lemma formatTime_nonneg (time : Z) :
  (0 <= time)%Z ->
  formatTime time
  = (JS.Z_toString (time / 60) ++ ":" ++ two_digits (time mod 60))%string.
Proof.
  intros H. unfold formatTime, JS.Math_floor_div.
  rewrite (rem_nonneg _ H).
  rewrite seconds_two_digits by (apply Z.mod_pos_bound; lia).
  reflexivity.
Qed.

(** X4. For a duration of zero seconds or more, [formatTime] prints the
    whole minutes, a colon, and the remaining seconds as exactly two
    digits. *)
Theorem formatTime_minutes_seconds (time : Z) :
  (0 <= time)%Z ->
  formatTime time
  = (JS.Z_toString (time / 60) ++ ":" ++ two_digits (time mod 60))%string
  /\ String.length (formatTime time)
     = (String.length (JS.Z_toString (time / 60)) + 3)%nat.
Proof.
  intros H. split.
  - apply formatTime_nonneg, H.
  - rewrite (formatTime_nonneg _ H), !length_append. cbn. lia.
Qed.

Lemma formatTime_minutes_seconds_witness :
  (0 <= 125)%Z /\ formatTime 125 = "2:05".
Proof.
  assert (H : (0 <= 125)%Z) by discriminate.
  exact (conj H (proj1 (formatTime_minutes_seconds 125 H))).
Defined.

Lemma append_same_length (s1 s2 t1 t2 : string) :
  String.length t1 = String.length t2 ->
  (s1 ++ t1 = s2 ++ t2)%string -> s1 = s2 /\ t1 = t2.
Proof.
  revert s2. induction s1 as [|c s1 IH]; intros s2 Hl E.
  - destruct s2 as [|c2 s2]; [auto|]. cbn in E.
    apply (f_equal String.length) in E. cbn in E.
    rewrite length_append in E. lia.
  - destruct s2 as [|c2 s2]; cbn in E.
    + apply (f_equal String.length) in E. cbn in E.
      rewrite length_append in E. lia.
    + injection E as -> E. destruct (IH _ Hl E) as [-> ->]. auto.
Qed.

Lemma Z_toString_inj (a b : Z) : JS.Z_toString a = JS.Z_toString b -> a = b.
Proof.
  unfold JS.Z_toString. intros E.
  apply (f_equal NilZero.int_of_string) in E.
  assert (N : forall z, Z.to_int z <> Decimal.Pos Decimal.Nil
                        /\ Z.to_int z <> Decimal.Neg Decimal.Nil).
  { intros z. destruct (DecimalZ.to_int_surj (Z.to_int z)) as [n Hn].
    pose proof (DecimalZ.to_of (Z.to_int z)) as T.
    rewrite DecimalZ.of_to in T.
    split; intros Habs; rewrite Habs in T; discriminate T. }
  rewrite !NilZero.isi in E by apply N.
  injection E as E. apply DecimalZ.to_int_inj, E.
Qed.

Lemma two_digits_inj (s t : Z) :
  (0 <= s < 60)%Z -> (0 <= t < 60)%Z -> two_digits s = two_digits t -> s = t.
Proof.
  intros Hs Ht E. unfold two_digits, digit in E.
  injection E as E1 E2.
  apply (f_equal nat_of_ascii) in E1, E2.
  assert (B1 : (0 <= s / 10 < 6)%Z)
    by (split; [apply Z.div_pos; lia | apply Z.div_lt_upper_bound; lia]).
  assert (B2 : (0 <= t / 10 < 6)%Z)
    by (split; [apply Z.div_pos; lia | apply Z.div_lt_upper_bound; lia]).
  pose proof (Z.mod_pos_bound s 10 ltac:(lia)) as M1.
  pose proof (Z.mod_pos_bound t 10 ltac:(lia)) as M2.
  rewrite !nat_ascii_embedding in E1, E2 by lia.
  rewrite (Z.div_mod s 10), (Z.div_mod t 10) by lia. lia.
Qed.

(** X5. Two different durations of zero seconds or more are never printed
    the same. *)
Theorem formatTime_injective (a b : Z) :
  (0 <= a)%Z -> (0 <= b)%Z -> a <> b -> formatTime a <> formatTime b.
Proof.
  intros Ha Hb Hne E. apply Hne.
  rewrite !formatTime_nonneg in E by assumption.
  apply append_same_length in E; [|reflexivity].
  destruct E as [Em Es]. apply Z_toString_inj in Em.
  injection Es as Es1 Es2.
  assert (Es : two_digits (a mod 60) = two_digits (b mod 60))
    by (unfold two_digits; rewrite Es1, Es2; reflexivity).
  apply two_digits_inj in Es; try (apply Z.mod_pos_bound; lia).
  rewrite (Z.div_mod a 60), (Z.div_mod b 60) by lia. lia.
Qed.

Lemma formatTime_injective_witness :
  (0 <= 59)%Z /\ (0 <= 60)%Z /\ 59%Z <> 60%Z /\ formatTime 59 <> formatTime 60.
Proof.
  assert (Ha : (0 <= 59)%Z) by discriminate.
  assert (Hb : (0 <= 60)%Z) by discriminate.
  assert (Hne : 59%Z <> 60%Z) by discriminate.
  exact (conj Ha (conj Hb (conj Hne (formatTime_injective 59 60 Ha Hb Hne)))).
Defined.

(** ** What a run of the handler does to the store *)

(** The five ways a run can end. *)
Lemma handler_cases env req db :
  (getBeatmaps env = Rejected
   /\ handler env req db
      = (Some (SendMapset EmptyObject ["Invalid beatmap ID"]), db))
  \/ handler env req db = (None, db)
  \/ (exists first rest settings,
        getBeatmaps env = Resolved (first :: rest)
        /\ find_settings (Req.target req) (db_settings db) = Some settings
        /\ validate (make_map first (first :: rest) req) req settings
             (latest_request (User.userid (Req.user req)) (Req.target req)
                (db_requests db)) (now env) <> []
        /\ handler env req db
           = (Some (SendMap (MapObject (make_map first (first :: rest) req))
                      (validate (make_map first (first :: rest) req) req settings
                         (latest_request (User.userid (Req.user req))
                            (Req.target req) (db_requests db)) (now env))),
              db))
  \/ (exists first rest settings,
        getBeatmaps env = Resolved (first :: rest)
        /\ find_settings (Req.target req) (db_settings db) = Some settings
        /\ validate (make_map first (first :: rest) req) req settings
             (latest_request (User.userid (Req.user req)) (Req.target req)
                (db_requests db)) (now env) = []
        /\ save_ok env = true
        /\ handler env req db
           = (Some (SendMap (RequestObject
                      (new_Request (make_map first (first :: rest) req) req
                         (now env))) []),
              mkDB (db_requests db
                      ++ [new_Request (make_map first (first :: rest) req) req
                            (now env)])
                   (if (count_requests "Pending" (Req.target req)
                          (db_requests db
                             ++ [new_Request (make_map first (first :: rest) req)
                                   req (now env)])
                        >=? Settings.maxPending settings)%Z
                    then update_first (Req.target req) (Settings.set_open false)
                           (db_settings db)
                    else db_settings db)))
  \/ (exists first rest settings,
        getBeatmaps env = Resolved (first :: rest)
        /\ find_settings (Req.target req) (db_settings db) = Some settings
        /\ validate (make_map first (first :: rest) req) req settings
             (latest_request (User.userid (Req.user req)) (Req.target req)
                (db_requests db)) (now env) = []
        /\ save_ok env = true
        /\ (count_ok env = false \/ update_ok env = false)
        /\ handler env req db
           = (None,
              mkDB (db_requests db
                      ++ [new_Request (make_map first (first :: rest) req) req
                            (now env)])
                   (db_settings db))).
Proof.
  destruct (getBeatmaps env) as [|[|first rest]] eqn:Hl.
  - left. split; [reflexivity | apply handler_rejected, Hl].
  - right. left. apply handler_empty, Hl.
  - destruct (find_settings (Req.target req) (db_settings db))
      as [settings|] eqn:Hs.
    2:{ right. left. apply (handler_no_settings _ _ _ _ _ Hl Hs). }
    destruct (validate (make_map first (first :: rest) req) req settings
                (latest_request (User.userid (Req.user req)) (Req.target req)
                   (db_requests db)) (now env)) as [|e es] eqn:Hv.
    + destruct (handler_valid_cases _ _ _ _ _ _ Hl Hs Hv)
        as [[Hok E] | [[Hok E] | (Hok & Hf & E)]].
      * right. left. exact E.
      * right. right. right. left. exists first, rest, settings.
        rewrite Hv. repeat (split; [reflexivity|]). split; assumption.
      * right. right. right. right. exists first, rest, settings.
        rewrite Hv. repeat (split; [reflexivity|]). repeat split; assumption.
    + right. right. left. exists first, rest, settings.
      rewrite Hv. split; [reflexivity|]. split; [reflexivity|].
      split; [discriminate|].
      rewrite (handler_refused _ _ _ _ _ _ Hl Hs) by (rewrite Hv; discriminate).
      rewrite Hv. reflexivity.
Qed.

Lemma app_one_neq {A} (l : list A) (x : A) : (l ++ [x])%list <> l.
Proof.
  intros E. apply (f_equal (@List.length A)) in E.
  rewrite length_app in E. cbn in E. lia.
Qed.

(** X6. A run appends a document to the requests exactly when the lookup
    resolved to a non-empty array, the target has settings, the array
    [errors] ends up empty, and the store accepts the write. A response that
    carries a stored document is sent only by such a run: its reasons are
    empty and the document is the one appended. A run that appends nothing
    leaves the whole store as it was. A run that appends a document and
    sends no response is one where the count or the write of the settings
    failed after the save; it leaves the settings as they were. *)
Theorem stores_iff_accepted env req db :
  ((exists request,
      db_requests (snd (handler env req db))
      = (db_requests db ++ [request])%list)
   <-> (exists first rest settings,
          getBeatmaps env = Resolved (first :: rest)
          /\ find_settings (Req.target req) (db_settings db) = Some settings
          /\ validate (make_map first (first :: rest) req) req settings
               (latest_request (User.userid (Req.user req)) (Req.target req)
                  (db_requests db)) (now env) = []
          /\ save_ok env = true))
  /\ (forall request errors,
        fst (handler env req db) = Some (SendMap (RequestObject request) errors) ->
        errors = []
        /\ db_requests (snd (handler env req db))
           = (db_requests db ++ [request])%list)
  /\ (db_requests (snd (handler env req db)) = db_requests db ->
      snd (handler env req db) = db)
  /\ (db_requests (snd (handler env req db)) <> db_requests db ->
      fst (handler env req db) = None ->
      (count_ok env = false \/ update_ok env = false)
      /\ db_settings (snd (handler env req db)) = db_settings db).
Proof.
  destruct (handler_cases env req db)
    as [[Hl H] | [H | [(f & r & s & Hl & Hs & Hv & H)
                      | [(f & r & s & Hl & Hs & Hv & Hok & H)
                        | (f & r & s & Hl & Hs & Hv & Hok & Hf & H)]]]];
    rewrite H; cbn [fst snd db_requests db_settings].
  - split; [|split; [discriminate | split; [reflexivity | discriminate]]].
    split.
    + intros [x Hx]. symmetry in Hx. destruct (app_one_neq _ _ Hx).
    + intros (f & r & s & Hl' & _). congruence.
  - split; [|split; [discriminate
                    | split; [reflexivity | intros Hx; destruct Hx; reflexivity]]].
    split.
    + intros [x Hx]. symmetry in Hx. destruct (app_one_neq _ _ Hx).
    + intros (f & r & s & Hl & Hs & Hv & Hok).
      destruct (handler_valid_cases _ _ _ _ _ _ Hl Hs Hv)
        as [[Hno _] | [[_ E] | (_ & _ & E)]]; [congruence | |];
        rewrite E in H; [discriminate H|].
      injection H as H. apply (f_equal db_requests) in H.
      cbn [db_requests] in H. destruct (app_one_neq _ _ H).
  - split; [|split; [discriminate | split; [reflexivity | discriminate]]].
    split.
    + intros [x Hx]. symmetry in Hx. destruct (app_one_neq _ _ Hx).
    + intros (f' & r' & s' & Hl' & Hs' & Hv' & _).
      rewrite Hl in Hl'. injection Hl' as <- <-.
      rewrite Hs in Hs'. injection Hs' as <-. contradiction.
  - split; [|split; [|split]].
    + split; intros _; [exists f, r, s; auto | eexists; reflexivity].
    + intros request errors [= <- <-]. split; reflexivity.
    + intros Hx. destruct (app_one_neq _ _ Hx).
    + discriminate.
  - split; [|split; [|split]].
    + split; intros _; [exists f, r, s; auto | eexists; reflexivity].
    + discriminate.
    + intros Hx. destruct (app_one_neq _ _ Hx).
    + intros _ _. split; [exact Hf | reflexivity].
Qed.

Lemma find_update_first_other owner other f l :
  owner <> other ->
  (forall s, Settings.owner (f s) = Settings.owner s) ->
  find_settings other (update_first owner f l) = find_settings other l.
Proof.
  intros Hne Hf. unfold find_settings.
  induction l as [|s r IH]; [reflexivity|].
  cbn [update_first find].
  destruct (String.eqb (Settings.owner s) owner) eqn:E; cbn [find].
  - rewrite Hf. apply String.eqb_eq in E.
    destruct (String.eqb (Settings.owner s) other) eqn:E'; [|reflexivity].
    apply String.eqb_eq in E'. congruence.
  - destruct (String.eqb (Settings.owner s) other); [reflexivity | exact IH].
Qed.

Lemma handler_settings_cases env req db :
  db_settings (snd (handler env req db)) = db_settings db
  \/ db_settings (snd (handler env req db))
     = update_first (Req.target req) (Settings.set_open false) (db_settings db).
Proof.
  destruct (handler_cases env req db)
    as [[Hl H] | [H | [(f & r & s & Hl & Hs & Hv & H)
                      | [(f & r & s & Hl & Hs & Hv & Hok & H)
                        | (f & r & s & Hl & Hs & Hv & Hok & Hf & H)]]]];
    rewrite H; cbn [snd db_settings]; auto.
  destruct (_ >=? _)%Z; auto.
Qed.

(** X7. A run never reopens a queue and never touches anything in the
    settings but the [open] flag of the target: a queue that was closed is
    closed afterwards, the settings of every other owner are as they were,
    and the settings of the target are as they were or differ only in
    [open] being false. *)
Theorem never_reopens env req db owner :
  (queue_open owner db = Some false ->
   queue_open owner (snd (handler env req db)) = Some false)
  /\ (owner <> Req.target req ->
      find_settings owner (db_settings (snd (handler env req db)))
      = find_settings owner (db_settings db))
  /\ (find_settings owner (db_settings (snd (handler env req db)))
      = find_settings owner (db_settings db)
      \/ find_settings owner (db_settings (snd (handler env req db)))
         = option_map (Settings.set_open false)
             (find_settings owner (db_settings db))).
Proof.
  unfold queue_open.
  destruct (handler_settings_cases env req db) as [E | E]; rewrite E.
  - auto.
  - destruct (String.eqb_spec (Req.target req) owner) as [<- | Hne].
    + rewrite find_update_first by reflexivity.
      split; [|split]; [| congruence | right; reflexivity].
      destruct (find_settings _ _) as [s|]; cbn; [|discriminate].
      intros _. reflexivity.
    + rewrite find_update_first_other by (auto; reflexivity). auto.
Qed.

Lemma never_reopens_witness :
  queue_open "bob" Sample.db_taiko = Some false
  /\ queue_open "bob"
       (snd (handler (Sample.env_at Sample.day) Sample.req_self Sample.db_taiko))
     = Some false.
Proof.
  refine (conj eq_refl _).
  exact (proj1 (never_reopens (Sample.env_at Sample.day) Sample.req_self
                  Sample.db_taiko "bob") eq_refl).
Defined.

(** ** Refusals *)

Lemma validate_not_owner map req settings lastReq now :
  User.username (Req.user req) <> Req.target req ->
  validate map req settings lastReq now
  = check_cooldown lastReq now settings
      (check_open settings
         (check_comment map
            (check_creator map req
               (check_status map settings (check_modes map settings []))))).
Proof.
  intros Hne. unfold validate. apply String.eqb_neq in Hne. rewrite Hne.
  reflexivity.
Qed.

Lemma check_prefix_status map settings errors :
  exists more, check_status map settings errors = (errors ++ more)%list.
Proof. rewrite check_status_rule. eauto. Qed.

Lemma check_prefix_creator map req errors :
  exists more, check_creator map req errors = (errors ++ more)%list.
Proof. rewrite check_creator_rule. eauto. Qed.

Lemma check_prefix_comment map errors :
  exists more, check_comment map errors = (errors ++ more)%list.
Proof. rewrite check_comment_rule. eauto. Qed.

Lemma check_prefix_open settings errors :
  exists more, check_open settings errors = (errors ++ more)%list.
Proof. rewrite check_open_rule. eauto. Qed.

Lemma check_prefix_cooldown lastReq now settings errors :
  exists more,
    check_cooldown lastReq now settings errors = (errors ++ more)%list.
Proof. rewrite check_cooldown_rule. eauto. Qed.

(** X8. A queue whose list of accepted modes is empty refuses every
    submission that is not the owner's: the first reason is the list
    message with nothing after the colon, and nothing is stored. *)
Theorem empty_modes_refuse env req db first rest settings :
  getBeatmaps env = Resolved (first :: rest) ->
  find_settings (Req.target req) (db_settings db) = Some settings ->
  User.username (Req.user req) <> Req.target req ->
  Settings.modes settings = [] ->
  exists more,
    handler env req db
    = (Some (SendMap (MapObject (make_map first (first :: rest) req))
               ("Must be one of the following gamemodes: " :: more)), db).
Proof.
  intros Hl Hs Hne Hm.
  assert (Hv : exists more,
             validate (make_map first (first :: rest) req) req settings
               (latest_request (User.userid (Req.user req)) (Req.target req)
                  (db_requests db)) (now env)
             = "Must be one of the following gamemodes: " :: more).
  { rewrite (validate_rules _ _ _ _ _ Hne). unfold Spec.reasons.
    unfold Spec.category_rule, Spec.wrong_category, Spec.category_message.
    rewrite Hm.
    assert (E : existsb (fun d : Diff.t => existsb (String.eqb (Diff.mode d)) [])
                  (Map.diffs (make_map first (first :: rest) req)) = false).
    { induction (Map.diffs _) as [|d l IH]; [reflexivity | exact IH]. }
    rewrite E. cbn [negb app String.concat]. eauto. }
  destruct Hv as [more Hv]. exists more.
  rewrite (handler_refused _ _ _ _ _ _ Hl Hs) by (rewrite Hv; discriminate).
  rewrite Hv. reflexivity.
Qed.

Lemma empty_modes_refuse_witness :
  exists more,
    handler (Sample.env_at Sample.day) Sample.req_to_bob
      (mkDB [] [Settings.mk "bob" "modder" [] true (1 # 1) 2])
    = (Some (SendMap (MapObject (make_map Sample.hard Sample.mapData
                                   Sample.req_to_bob))
               ("Must be one of the following gamemodes: " :: more)),
       mkDB [] [Settings.mk "bob" "modder" [] true (1 # 1) 2]).
Proof.
  apply (empty_modes_refuse (Sample.env_at Sample.day) Sample.req_to_bob
           (mkDB [] [Settings.mk "bob" "modder" [] true (1 # 1) 2])
           Sample.hard [Sample.easy]
           (Settings.mk "bob" "modder" [] true (1 # 1) 2)).
  - reflexivity.
  - reflexivity.
  - discriminate.
  - reflexivity.
Defined.

(** ** Two submissions in a row *)

Lemma latest_request_app_new user target docs r :
  Request.user r = user -> Request.target r = target ->
  exists x,
    latest_request user target (docs ++ [r]) = Some x
    /\ (Request.requestDate r <= Request.requestDate x)%Z.
Proof.
  intros Hu Ht. unfold latest_request.
  rewrite filter_app. cbn [filter]. rewrite Hu, Ht, Z.eqb_refl, String.eqb_refl.
  cbn [andb].
  destruct (fold_left later _ None) as [x|] eqn:Hx.
  - exists x. split; [reflexivity|].
    destruct (fold_later_max _ _ _ Hx) as (H1 & _ & _).
    apply H1, in_or_app. right. left. reflexivity.
  - apply fold_later_none in Hx. destruct Hx as [Hx _].
    destruct (filter _ docs); discriminate Hx.
Qed.

(** X9. When a submission has been accepted and the next run, on the store
    exactly as that run left it, is a submission by the same user to the
    same queue earlier than the cooldown period after the first, this second
    submission is refused, whoever owns the map and whatever its content: the
    last reason is the cooldown message, and nothing is stored. The user is
    not the owner of the queue. *)
Theorem resubmission_within_cooldown env1 env2 req1 req2 db db1 request errs
  settings first rest :
  handler env1 req1 db = (Some (SendMap (RequestObject request) errs), db1) ->
  find_settings (Req.target req1) (db_settings db) = Some settings ->
  Req.user req2 = Req.user req1 ->
  Req.target req2 = Req.target req1 ->
  User.username (Req.user req2) <> Req.target req2 ->
  getBeatmaps env2 = Resolved (first :: rest) ->
  inject_Z (now env2 - now env1)
  < F64.mul (F64.mul (F64.mul (Settings.cooldown settings) 24) 3600) 1000 ->
  exists before days,
    handler env2 req2 db1
    = (Some (SendMap (MapObject (make_map first (first :: rest) req2))
               (before
                  ++ [("You need to wait " ++ days
                         ++ " days before you can request again")%string])%list),
       db1).
Proof.
  intros H1 Hs Hu Ht Hne Hl2 Hlt.
  destruct (handler_accepted_inv _ _ _ _ _ _ H1)
    as (f1 & r1 & s1 & Hl1 & Hs1 & Hok & Hr & He & Hd).
  rewrite Hs in Hs1. injection Hs1 as <-.
  assert (Hs2 : exists s2,
             find_settings (Req.target req2) (db_settings db1) = Some s2
             /\ Settings.cooldown s2 = Settings.cooldown settings).
  { rewrite Ht, Hd. cbn [db_settings]. destruct (_ >=? _)%Z.
    - rewrite find_update_first by reflexivity. rewrite Hs. cbn.
      eexists. split; reflexivity.
    - exists settings. auto. }
  destruct Hs2 as (s2 & Hs2 & Hc).
  destruct (latest_request_app_new (User.userid (Req.user req2))
              (Req.target req2) (db_requests db) request)
    as (x & Hx & Hdate).
  { rewrite Hr, Hu. reflexivity. }
  { rewrite Hr, Ht. reflexivity. }
  assert (Hr1 : db_requests db1 = (db_requests db ++ [request])%list)
    by (rewrite Hd; reflexivity).
  assert (Hnow : Request.requestDate request = now env1)
    by (rewrite Hr; reflexivity).
  assert (Hv : exists before days,
             validate (make_map first (first :: rest) req2) req2 s2
               (latest_request (User.userid (Req.user req2)) (Req.target req2)
                  (db_requests db1)) (now env2)
             = (before
                  ++ [("You need to wait " ++ days
                         ++ " days before you can request again")%string])%list).
  { rewrite (validate_not_owner _ _ _ _ _ Hne), Hr1, Hx.
    unfold check_cooldown. cbv zeta.
    assert (L : JS.lt (inject_Z (now env2 - Request.requestDate x))
                  (F64.mul (F64.mul (F64.mul (Settings.cooldown s2) 24) 3600)
                     1000) = true).
    { apply lt_spec. rewrite Hc.
      eapply Qle_lt_trans; [|exact Hlt].
      rewrite <- Zle_Qle. lia. }
    rewrite L. unfold JS.push. eauto. }
  destruct Hv as (before & days & Hv). exists before, days.
  rewrite (handler_refused _ _ _ _ _ _ Hl2 Hs2)
    by (rewrite Hv; intros E; destruct before; discriminate E).
  rewrite Hv. reflexivity.
Qed.

Lemma resubmission_within_cooldown_witness :
  Sample.alice <> Sample.bob
  /\ exists before days,
       handler (Sample.env_at (2 * Sample.day + 1000)) Sample.req_to_bob
         (snd (handler (Sample.env_at (2 * Sample.day)) Sample.req_to_bob
                 Sample.db_empty))
       = (Some (SendMap (MapObject (make_map Sample.hard Sample.mapData
                                      Sample.req_to_bob))
                  (before
                     ++ [("You need to wait " ++ days
                            ++ " days before you can request again")%string])%list),
          snd (handler (Sample.env_at (2 * Sample.day)) Sample.req_to_bob
                 Sample.db_empty)).
Proof.
  split; [discriminate|].
  apply (resubmission_within_cooldown
           (Sample.env_at (2 * Sample.day))
           (Sample.env_at (2 * Sample.day + 1000))
           Sample.req_to_bob Sample.req_to_bob Sample.db_empty
           (snd (handler (Sample.env_at (2 * Sample.day)) Sample.req_to_bob
                   Sample.db_empty))
           (new_Request (make_map Sample.hard Sample.mapData Sample.req_to_bob)
              Sample.req_to_bob (2 * Sample.day))
           [] Sample.bob_settings Sample.hard [Sample.easy]).
  - vm_compute. reflexivity.
  - reflexivity.
  - reflexivity.
  - reflexivity.
  - discriminate.
  - reflexivity.
  - vm_compute. reflexivity.
Defined.

(** X10. When an accepted submission brings the number of "Pending"
    documents of the target to maxPending or more and the next run, on the
    store exactly as that run left it, is a submission to that queue by
    anyone but its owner, it is refused with "Requests are closed" among the
    reasons, and nothing is stored. *)
Theorem full_queue_refuses env1 env2 req1 req2 db db1 request errs settings
  first rest :
  handler env1 req1 db = (Some (SendMap (RequestObject request) errs), db1) ->
  find_settings (Req.target req1) (db_settings db) = Some settings ->
  (Settings.maxPending settings
   <= count_requests "Pending" (Req.target req1) (db_requests db) + 1)%Z ->
  Req.target req2 = Req.target req1 ->
  User.username (Req.user req2) <> Req.target req2 ->
  getBeatmaps env2 = Resolved (first :: rest) ->
  exists errors,
    handler env2 req2 db1
    = (Some (SendMap (MapObject (make_map first (first :: rest) req2)) errors),
       db1)
    /\ In "Requests are closed" errors.
Proof.
  intros H1 Hs Hfull Ht Hne Hl2.
  destruct (handler_accepted_inv _ _ _ _ _ _ H1)
    as (f1 & r1 & s1 & Hl1 & Hs1 & Hok & Hr & He & Hd).
  rewrite Hs in Hs1. injection Hs1 as <-.
  assert (Hs2 : find_settings (Req.target req2) (db_settings db1)
                = Some (Settings.set_open false settings)).
  { rewrite Ht, Hd. cbn [db_settings].
    rewrite count_requests_app, Hr, count_requests_new.
    destruct (Z.geb_spec
                (count_requests "Pending" (Req.target req1) (db_requests db) + 1)
                (Settings.maxPending settings)); [|lia].
    rewrite find_update_first by reflexivity. rewrite Hs. reflexivity. }
  assert (Hin : In "Requests are closed"
                  (validate (make_map first (first :: rest) req2) req2
                     (Settings.set_open false settings)
                     (latest_request (User.userid (Req.user req2))
                        (Req.target req2) (db_requests db1)) (now env2))).
  { rewrite (validate_rules _ _ _ _ _ Hne). unfold Spec.reasons.
    do 4 (apply in_or_app; right). apply in_or_app. left. left. reflexivity. }
  eexists. split.
  - apply (handler_refused _ _ _ _ _ _ Hl2 Hs2).
    intros E. rewrite E in Hin. destruct Hin.
  - exact Hin.
Qed.

Lemma full_queue_refuses_witness :
  (Settings.maxPending Sample.bob_settings
   <= count_requests "Pending" "bob" (db_requests Sample.db_one_archived) + 1)%Z
  /\ exists errors,
       handler (Sample.env_at (9 * Sample.day)) Sample.req_to_bob
         (snd (handler (Sample.env_at (2 * Sample.day)) Sample.req_to_bob
                 Sample.db_one_archived))
       = (Some (SendMap (MapObject (make_map Sample.hard Sample.mapData
                                      Sample.req_to_bob)) errors),
          snd (handler (Sample.env_at (2 * Sample.day)) Sample.req_to_bob
                 Sample.db_one_archived))
       /\ In "Requests are closed" errors.
Proof.
  assert (Hfull : (Settings.maxPending Sample.bob_settings
                   <= count_requests "Pending" "bob"
                        (db_requests Sample.db_one_archived) + 1)%Z)
    by discriminate.
  refine (conj Hfull _).
  apply (full_queue_refuses
           (Sample.env_at (2 * Sample.day)) (Sample.env_at (9 * Sample.day))
           Sample.req_to_bob Sample.req_to_bob Sample.db_one_archived
           (snd (handler (Sample.env_at (2 * Sample.day)) Sample.req_to_bob
                   Sample.db_one_archived))
           (new_Request (make_map Sample.hard Sample.mapData Sample.req_to_bob)
              Sample.req_to_bob (2 * Sample.day))
           [] Sample.bob_settings Sample.hard [Sample.easy]).
  - vm_compute. reflexivity.
  - reflexivity.
  - exact Hfull.
  - reflexivity.
  - discriminate.
  - reflexivity.
Defined.

Lemma count_requests_new_at map req now target :
  count_requests "Pending" target [new_Request map req now]
  = if String.eqb (Req.target req) target then 1%Z else 0%Z.
Proof.
  unfold count_requests. cbn [filter new_Request Request.status Request.target].
  change (String.eqb "Pending" "Pending") with true. cbn [andb].
  destruct (String.eqb (Req.target req) target); reflexivity.
Qed.

(** X11. An accepted submission raises the number of "Pending" documents of
    its target by exactly one and leaves the number for every other target
    as it was. *)
Theorem accepted_counts_once env req db request errs db1 target :
  handler env req db = (Some (SendMap (RequestObject request) errs), db1) ->
  count_requests "Pending" target (db_requests db1)
  = (count_requests "Pending" target (db_requests db)
     + if String.eqb (Req.target req) target then 1 else 0)%Z.
Proof.
  intros H.
  destruct (handler_accepted_inv _ _ _ _ _ _ H)
    as (f & r & s & Hl & Hs & Hok & Hr & He & Hd).
  rewrite Hd. cbn [db_requests].
  rewrite count_requests_app, Hr, count_requests_new_at. reflexivity.
Qed.

Lemma accepted_counts_once_witness :
  count_requests "Pending" "bob"
    (db_requests (snd (handler (Sample.env_at (2 * Sample.day))
                         Sample.req_to_bob Sample.db_one_archived)))
  = (count_requests "Pending" "bob" (db_requests Sample.db_one_archived)
     + if String.eqb (Req.target Sample.req_to_bob) "bob" then 1 else 0)%Z.
Proof.
  assert (H : handler (Sample.env_at (2 * Sample.day)) Sample.req_to_bob
                Sample.db_one_archived
              = (Some (SendMap
                         (RequestObject
                            (new_Request
                               (make_map Sample.hard Sample.mapData
                                  Sample.req_to_bob)
                               Sample.req_to_bob (2 * Sample.day))) []),
                 snd (handler (Sample.env_at (2 * Sample.day))
                        Sample.req_to_bob Sample.db_one_archived)))
    by (vm_compute; reflexivity).
  exact (accepted_counts_once (Sample.env_at (2 * Sample.day))
           Sample.req_to_bob Sample.db_one_archived _ _ _ "bob" H).
Defined.

(** ** [GET /api/requests] *)

Section SortedBy.
Context {A : Type} (cmp : A -> A -> Q) (le : A -> A -> Prop).
Hypothesis cmp_le : forall a b, Qle_bool (cmp a b) 0 = true -> le a b.
Hypothesis cmp_gt : forall a b, Qle_bool (cmp a b) 0 = false -> le b a.

Lemma sort_insert_hd_by (a b : A) (l : list A) :
  le b a -> HdRel le b l -> HdRel le b (JS.sort_insert cmp a l).
Proof.
  intros Hba Hl. destruct l as [|c r]; cbn [JS.sort_insert].
  - constructor. exact Hba.
  - destruct (Qle_bool (cmp a c) 0); constructor;
      [exact Hba | inversion Hl; assumption].
Qed.

Lemma sort_insert_sorted_by (a : A) (l : list A) :
  Sorted le l -> Sorted le (JS.sort_insert cmp a l).
Proof.
  induction 1 as [|b r Hr IH Hb]; cbn [JS.sort_insert].
  - repeat constructor.
  - destruct (Qle_bool (cmp a b) 0) eqn:E.
    + repeat constructor; [assumption | assumption | apply cmp_le, E].
    + constructor; [exact IH|].
      apply sort_insert_hd_by; [apply cmp_gt, E | exact Hb].
Qed.

Lemma sort_sorted_by (l : list A) : Sorted le (JS.sort cmp l).
Proof.
  induction l as [|a r IH]; cbn [JS.sort].
  - constructor.
  - apply sort_insert_sorted_by, IH.
Qed.
End SortedBy.

Lemma by_date_desc_le (a b : Request.t) :
  Qle_bool (by_date_desc a b) 0 = true -> date_ge a b.
Proof.
  unfold by_date_desc, date_ge. rewrite Qle_bool_iff.
  change 0 with (inject_Z 0). rewrite <- Zle_Qle. lia.
Qed.

Lemma by_date_desc_gt (a b : Request.t) :
  Qle_bool (by_date_desc a b) 0 = false -> date_ge b a.
Proof.
  unfold by_date_desc, date_ge. intros H.
  destruct (Z.le_gt_cases (Request.requestDate a) (Request.requestDate b))
    as [L | L]; [exact L|].
  assert (T : Qle_bool (inject_Z (Request.requestDate b - Request.requestDate a)) 0
              = true).
  { apply Qle_bool_iff. change 0 with (inject_Z 0). rewrite <- Zle_Qle. lia. }
  congruence.
Qed.

Lemma listing_sorted_perm target archived db :
  exists l,
    get_requests target archived db = (Some l, db)
    /\ Sorted date_ge l
    /\ Permutation l
         (filter (fun r => String.eqb (Request.target r) target
                           && Bool.eqb (Request.archived r) archived)
                 (db_requests db)).
Proof.
  eexists. split; [reflexivity|]. split.
  - apply (sort_sorted_by by_date_desc date_ge by_date_desc_le by_date_desc_gt).
  - apply sort_perm.
Qed.

Lemma listing_member target archived db l r :
  get_requests target archived db = (Some l, db) ->
  In r l <-> In r (db_requests db)
             /\ Request.target r = target /\ Request.archived r = archived.
Proof.
  intros H. destruct (listing_sorted_perm target archived db) as (l' & H' & _ & P).
  rewrite H in H'. injection H' as <-.
  split.
  - intros Hin. apply (Permutation_in _ P) in Hin.
    apply filter_In in Hin. destruct Hin as [Hin Hb].
    apply andb_prop in Hb. destruct Hb as [Ht Ha].
    apply String.eqb_eq in Ht. apply Bool.eqb_prop in Ha. auto.
  - intros (Hin & Ht & Ha).
    apply (Permutation_in _ (Permutation_sym P)).
    apply filter_In. split; [exact Hin|].
    rewrite Ht, Ha, String.eqb_refl, Bool.eqb_reflx. reflexivity.
Qed.

(** X12. The listing of a queue reads the store without changing it and
    returns exactly the stored documents of that target with the requested
    [archived] flag, each as often as it is stored, most recent first. *)
Theorem listing_most_recent_first target archived db :
  exists l,
    get_requests target archived db = (Some l, db)
    /\ Sorted date_ge l
    /\ Permutation l
         (filter (fun r => String.eqb (Request.target r) target
                           && Bool.eqb (Request.archived r) archived)
                 (db_requests db))
    /\ (forall r, In r l <-> In r (db_requests db)
                             /\ Request.target r = target
                             /\ Request.archived r = archived).
Proof.
  destruct (listing_sorted_perm target archived db) as (l & H & S & P).
  exists l. split; [exact H|]. split; [exact S|]. split; [exact P|].
  intros r. apply (listing_member _ _ _ _ _ H).
Qed.

Lemma date_ge_trans : Relations_1.Transitive date_ge.
Proof. intros a b c. unfold date_ge. lia. Qed.

(** X13. A submission that has just been accepted shows in the listing of
    the open requests of its target and not in the listing of the archived
    ones; if every stored document was older than the submission, it is the
    first of the listing. *)
Theorem accepted_is_listed env req db request errs db1 :
  handler env req db = (Some (SendMap (RequestObject request) errs), db1) ->
  exists l,
    get_requests (Req.target req) false db1 = (Some l, db1)
    /\ In request l
    /\ (forall l', get_requests (Req.target req) true db1 = (Some l', db1) ->
                   ~ In request l')
    /\ ((forall r, In r (db_requests db) ->
                   (Request.requestDate r < now env)%Z) ->
        hd_error l = Some request).
Proof.
  intros H.
  destruct (handler_accepted_inv _ _ _ _ _ _ H)
    as (f & r0 & s & Hl & Hs & Hok & Hr & He & Hd).
  assert (Hreqs : db_requests db1 = (db_requests db ++ [request])%list)
    by (rewrite Hd; reflexivity).
  assert (Ht : Request.target request = Req.target req)
    by (rewrite Hr; reflexivity).
  assert (Ha : Request.archived request = false) by (rewrite Hr; reflexivity).
  assert (Hdate : Request.requestDate request = now env)
    by (rewrite Hr; reflexivity).
  destruct (listing_sorted_perm (Req.target req) false db1) as (l & Hget & S & P).
  exists l. split; [exact Hget|].
  assert (Hin : In request l).
  { apply (listing_member _ _ _ _ _ Hget). rewrite Hreqs.
    split; [apply in_or_app; right; left; reflexivity | auto]. }
  split; [exact Hin|]. split.
  - intros l' Hget' Hin'. apply (listing_member _ _ _ _ _ Hget') in Hin'.
    destruct Hin' as (_ & _ & Ha'). congruence.
  - intros Hold. destruct l as [|h tl]; [destruct Hin|]. cbn [hd_error].
    destruct Hin as [-> | Hin]; [reflexivity|].
    apply Sorted_StronglySorted in S; [|exact date_ge_trans].
    apply StronglySorted_inv in S. destruct S as [_ Hall].
    rewrite Forall_forall in Hall. specialize (Hall _ Hin).
    unfold date_ge in Hall.
    assert (Hh : In h (db_requests db1)).
    { apply (listing_member _ _ _ _ h Hget). left. reflexivity. }
    rewrite Hreqs in Hh. apply in_app_or in Hh.
    destruct Hh as [Hh | [<- | []]]; [|reflexivity].
    specialize (Hold _ Hh). lia.
Qed.

Lemma accepted_is_listed_witness :
  exists l,
    get_requests "bob" false
      (snd (handler (Sample.env_at (2 * Sample.day)) Sample.req_to_bob
              Sample.db_one_archived))
    = (Some l, snd (handler (Sample.env_at (2 * Sample.day)) Sample.req_to_bob
                      Sample.db_one_archived))
    /\ In (new_Request (make_map Sample.hard Sample.mapData Sample.req_to_bob)
             Sample.req_to_bob (2 * Sample.day)) l.
Proof.
  assert (H : handler (Sample.env_at (2 * Sample.day)) Sample.req_to_bob
                Sample.db_one_archived
              = (Some (SendMap
                         (RequestObject
                            (new_Request
                               (make_map Sample.hard Sample.mapData
                                  Sample.req_to_bob)
                               Sample.req_to_bob (2 * Sample.day))) []),
                 snd (handler (Sample.env_at (2 * Sample.day))
                        Sample.req_to_bob Sample.db_one_archived)))
    by (vm_compute; reflexivity).
  destruct (accepted_is_listed (Sample.env_at (2 * Sample.day))
              Sample.req_to_bob Sample.db_one_archived _ _ _ H)
    as (l & H1 & H2 & _).
  exists l. exact (conj H1 H2).
Defined.

(** ** [DELETE /api/request] *)

Lemma deleteOne_cases id user docs :
  (Request_deleteOne id user docs = docs
   /\ forall d, In d docs ->
                Stored._id d <> id \/ Request.user (Stored.doc d) <> user)
  \/ (exists l1 d l2,
        docs = (l1 ++ d :: l2)%list
        /\ Request_deleteOne id user docs = (l1 ++ l2)%list
        /\ Stored._id d = id
        /\ Request.user (Stored.doc d) = user).
Proof.
  induction docs as [|d r IH]; cbn [Request_deleteOne].
  - left. split; [reflexivity | intros ? []].
  - destruct (Z.eqb_spec (Stored._id d) id) as [Ei | Ei];
      destruct (Z.eqb_spec (Request.user (Stored.doc d)) user) as [Eu | Eu];
      cbn [andb].
    + right. exists [], d, r. auto.
    + destruct IH as [[E Hn] | (l1 & x & l2 & E1 & E2 & Hx)].
      * left. rewrite E. split; [reflexivity|].
        intros y [<- | Hy]; auto.
      * right. exists (d :: l1), x, l2. rewrite E2, E1. auto.
    + destruct IH as [[E Hn] | (l1 & x & l2 & E1 & E2 & Hx)].
      * left. rewrite E. split; [reflexivity|].
        intros y [<- | Hy]; auto.
      * right. exists (d :: l1), x, l2. rewrite E2, E1. auto.
    + destruct IH as [[E Hn] | (l1 & x & l2 & E1 & E2 & Hx)].
      * left. rewrite E. split; [reflexivity|].
        intros y [<- | Hy]; auto.
      * right. exists (d :: l1), x, l2. rewrite E2, E1. auto.
Qed.

(** X14. Deleting a request removes at most one stored document, and only
    one that has the given id and belongs to the caller: every document of
    another user, and every document with another id, is still stored
    afterwards; when no document has that id and that user, the store is
    left as it was. *)
Theorem delete_only_own user id docs :
  ((delete_request user id docs = docs
    /\ forall d, In d docs ->
                 Stored._id d <> id
                 \/ Request.user (Stored.doc d) <> User.userid user)
   \/ (exists l1 d l2,
         docs = (l1 ++ d :: l2)%list
         /\ delete_request user id docs = (l1 ++ l2)%list
         /\ Stored._id d = id
         /\ Request.user (Stored.doc d) = User.userid user))
  /\ (forall d, In d docs ->
                Stored._id d <> id
                \/ Request.user (Stored.doc d) <> User.userid user ->
                In d (delete_request user id docs))
  /\ (forall d, In d (delete_request user id docs) -> In d docs).
Proof.
  unfold delete_request.
  destruct (deleteOne_cases id (User.userid user) docs)
    as [[E Hn] | (l1 & x & l2 & E1 & E2 & Hi & Hu)].
  - split; [left; auto|]. rewrite E. auto.
  - split; [right; exists l1, x, l2; auto|]. rewrite E2, E1. split.
    + intros d Hin Hd. apply in_app_or in Hin. apply in_or_app.
      destruct Hin as [Hin | [<- | Hin]]; auto.
      destruct Hd as [Hd | Hd]; contradiction.
    + intros d Hin. apply in_app_or in Hin. apply in_or_app.
      destruct Hin; [auto | right; right; assumption].
Qed.

Lemma delete_only_own_witness :
  In (Stored.mk 7 (Sample.old_request false 0))
     [Stored.mk 7 (Sample.old_request false 0)]
  /\ In (Stored.mk 7 (Sample.old_request false 0))
        (delete_request Sample.bob 7 [Stored.mk 7 (Sample.old_request false 0)]).
Proof.
  assert (H : In (Stored.mk 7 (Sample.old_request false 0))
                [Stored.mk 7 (Sample.old_request false 0)])
    by (left; reflexivity).
  refine (conj H _).
  apply (proj1 (proj2 (delete_only_own Sample.bob 7
                         [Stored.mk 7 (Sample.old_request false 0)])) _ H).
  right. discriminate.
Defined.

(** ** [POST /api/request-edit] *)

Lemma findOneAndUpdate_cases id f docs :
  (Request_findOneAndUpdate id f docs = (None, docs)
   /\ forall d, In d docs -> Stored._id d <> id)
  \/ (exists l1 d l2,
        docs = (l1 ++ d :: l2)%list
        /\ Request_findOneAndUpdate id f docs
           = (Some (Stored.mk id (f (Stored.doc d))),
              (l1 ++ Stored.mk id (f (Stored.doc d)) :: l2)%list)
        /\ Stored._id d = id
        /\ forall x, In x l1 -> Stored._id x <> id).
Proof.
  induction docs as [|d r IH]; cbn [Request_findOneAndUpdate].
  - left. split; [reflexivity | intros ? []].
  - destruct (Z.eqb_spec (Stored._id d) id) as [Ei | Ei].
    + right. exists [], d, r. rewrite Ei. cbn [app].
      repeat split; try reflexivity. intros ? [].
    + destruct IH as [[E Hn] | (l1 & x & l2 & E1 & E2 & Hx & Hl1)].
      * left. rewrite E. split; [reflexivity|].
        intros y [<- | Hy]; auto.
      * right. exists (d :: l1), x, l2. rewrite E2, E1.
        repeat split; try reflexivity; try assumption.
        intros y [<- | Hy]; auto.
Qed.

(** X15. Editing a request either finds no document with the given id,
    answers null and leaves the store as it was, or rewrites the first
    document with that id in place and answers with the rewritten document:
    its status, archived flag and feedback are the ones given, all its other
    fields and its id are kept, and no other document changes. *)
Theorem edit_in_place id feedback status archived docs :
  (request_edit id feedback status archived docs = (None, docs)
   /\ forall d, In d docs -> Stored._id d <> id)
  \/ (exists l1 d l2 r',
        docs = (l1 ++ d :: l2)%list
        /\ request_edit id feedback status archived docs
           = (Some (Stored.mk id r'), (l1 ++ Stored.mk id r' :: l2)%list)
        /\ Stored._id d = id
        /\ (forall x, In x l1 -> Stored._id x <> id)
        /\ Request.status r' = status
        /\ Request.archived r' = archived
        /\ Request.feedback r' = Some feedback
        /\ Request.user r' = Request.user (Stored.doc d)
        /\ Request.target r' = Request.target (Stored.doc d)
        /\ Request.requestDate r' = Request.requestDate (Stored.doc d)
        /\ forall m, carries_candidate_but_status (Stored.doc d) m ->
                     carries_candidate_but_status r' m).
Proof.
  unfold request_edit.
  destruct (findOneAndUpdate_cases id
              (set_moderation feedback status archived) docs)
    as [H | (l1 & d & l2 & E1 & E2 & Hi & Hl1)].
  - left. exact H.
  - right. exists l1, d, l2,
             (set_moderation feedback status archived (Stored.doc d)).
    repeat (split; [first [assumption | reflexivity]|]).
    intros m H. exact H.
Qed.

Lemma count_requests_cons status target r docs :
  count_requests status target (r :: docs)
  = ((if String.eqb (Request.status r) status
         && String.eqb (Request.target r) target then 1 else 0)
     + count_requests status target docs)%Z.
Proof.
  unfold count_requests. cbn [filter].
  destruct (_ && _); cbn [List.length]; lia.
Qed.

Lemma first_match_unique id (l1 k1 l2 k2 : list Stored.t) d x :
  (l1 ++ d :: l2 = k1 ++ x :: k2)%list ->
  Stored._id d = id -> Stored._id x = id ->
  (forall y, In y l1 -> Stored._id y <> id) ->
  (forall y, In y k1 -> Stored._id y <> id) ->
  k1 = l1 /\ x = d /\ k2 = l2.
Proof.
  revert k1. induction l1 as [|a l1 IH]; intros k1 E Hd Hx Hl Hk.
  - destruct k1 as [|b k1]; cbn [app] in E.
    + injection E as -> ->. auto.
    + injection E as -> _. exfalso.
      apply (Hk b); [left; reflexivity | exact Hd].
  - destruct k1 as [|b k1]; cbn [app] in E.
    + injection E as -> _. exfalso.
      apply (Hl x); [left; reflexivity | exact Hx].
    + injection E as -> E.
      destruct (IH k1 E Hd Hx (fun y Hy => Hl y (or_intror Hy))
                  (fun y Hy => Hk y (or_intror Hy))) as (-> & -> & ->).
      auto.
Qed.

(** X16. An edit changes the number of "Pending" documents of a target by
    what it does to the one document it rewrites: it takes away that
    document's old contribution and adds its new one. So archiving a
    pending request without changing its status frees no capacity, and
    giving a pending request another status frees one place. *)
Theorem edit_pending_count id feedback status archived l1 d l2 target :
  Stored._id d = id ->
  (forall x, In x l1 -> Stored._id x <> id) ->
  count_requests "Pending" target
    (documents (snd (request_edit id feedback status archived
                       (l1 ++ d :: l2)%list)))
  = (count_requests "Pending" target (documents (l1 ++ d :: l2)%list)
     - (if String.eqb (Request.status (Stored.doc d)) "Pending"
           && String.eqb (Request.target (Stored.doc d)) target
        then 1 else 0)
     + (if String.eqb status "Pending"
           && String.eqb (Request.target (Stored.doc d)) target
        then 1 else 0))%Z.
Proof.
  intros Hi Hl1. unfold request_edit.
  destruct (findOneAndUpdate_cases id
              (set_moderation feedback status archived) (l1 ++ d :: l2)%list)
    as [[_ Hn] | (k1 & x & k2 & E1 & E2 & Hx & Hk1)].
  - exfalso. apply (Hn d); [apply in_or_app; right; left; reflexivity | exact Hi].
  - destruct (first_match_unique id l1 k1 l2 k2 d x E1 Hi Hx Hl1 Hk1)
      as (-> & -> & ->).
    rewrite E2. cbn [snd].
    unfold documents. rewrite !map_app. cbn [List.map Stored.doc].
    rewrite !count_requests_app, !count_requests_cons.
    cbn [set_moderation Request.status Request.target]. lia.
Qed.

Lemma edit_pending_count_witness :
  count_requests "Pending" "bob"
    (documents (snd (request_edit 7 "ok" "Pending" true
                       [Stored.mk 7 (Sample.old_request false 0)])))
  = 1%Z.
Proof.
  exact (edit_pending_count 7 "ok" "Pending" true []
           (Stored.mk 7 (Sample.old_request false 0)) [] "bob" eq_refl
           (fun x (H : In x []) => match H with end)).
Defined.

(** ** [POST /api/open] and [POST /api/settings] *)

Lemma update_first_twice owner f g l :
  (forall s, Settings.owner (f s) = Settings.owner s) ->
  update_first owner g (update_first owner f l)
  = update_first owner (fun s => g (f s)) l.
Proof.
  intros Hf. induction l as [|s r IH]; [reflexivity|].
  cbn [update_first].
  destruct (String.eqb (Settings.owner s) owner) eqn:E; cbn [update_first].
  - rewrite Hf, E. reflexivity.
  - rewrite E, IH. reflexivity.
Qed.

Lemma update_first_ext owner f g l :
  (forall s, f s = g s) -> update_first owner f l = update_first owner g l.
Proof.
  intros H. induction l as [|s r IH]; [reflexivity|].
  cbn [update_first]. rewrite H, IH. reflexivity.
Qed.

Lemma update_first_missing owner f l :
  find_settings owner l = None -> update_first owner f l = l.
Proof.
  unfold find_settings. induction l as [|s r IH]; [reflexivity|].
  cbn [find update_first].
  destruct (String.eqb (Settings.owner s) owner); [discriminate|].
  intros H. rewrite (IH H). reflexivity.
Qed.

(** X17. Opening or closing a queue sets the [open] flag of the named
    owner's settings and nothing else: the requests and the settings of
    every other owner are as they were, a queue without settings gets none,
    and of two calls in a row for the same owner the second one decides. *)
Theorem open_sets_flag owner b db :
  db_requests (snd (post_open owner b db)) = db_requests db
  /\ find_settings owner (db_settings (snd (post_open owner b db)))
     = option_map (Settings.set_open b) (find_settings owner (db_settings db))
  /\ (forall other, owner <> other ->
        find_settings other (db_settings (snd (post_open owner b db)))
        = find_settings other (db_settings db))
  /\ (find_settings owner (db_settings db) = None ->
      snd (post_open owner b db) = db)
  /\ (forall b', snd (post_open owner b (snd (post_open owner b' db)))
                 = snd (post_open owner b db)).
Proof.
  unfold post_open, Settings_updateOne_open. cbn [snd db_requests db_settings].
  split; [reflexivity|]. split; [apply find_update_first; reflexivity|].
  split; [intros other Hne; apply find_update_first_other; auto; reflexivity|].
  split.
  - intros Hn. rewrite (update_first_missing _ _ _ Hn). destruct db; reflexivity.
  - intros b'. rewrite update_first_twice by reflexivity. reflexivity.
Qed.

(** X18. A queue that an accepted submission has closed for being full is
    open again after its owner's settings are opened, and nothing else in
    the store has changed in between. *)
Theorem reopen_after_full env req db request errs db1 settings :
  handler env req db = (Some (SendMap (RequestObject request) errs), db1) ->
  find_settings (Req.target req) (db_settings db) = Some settings ->
  (Settings.maxPending settings
   <= count_requests "Pending" (Req.target req) (db_requests db) + 1)%Z ->
  queue_open (Req.target req) db1 = Some false
  /\ queue_open (Req.target req) (snd (post_open (Req.target req) true db1))
     = Some true
  /\ db_requests (snd (post_open (Req.target req) true db1)) = db_requests db1
  /\ find_settings (Req.target req)
       (db_settings (snd (post_open (Req.target req) true db1)))
     = Some (Settings.set_open true settings).
Proof.
  intros H Hs Hfull.
  destruct (handler_accepted_inv _ _ _ _ _ _ H)
    as (f & r & s & Hl & Hs' & Hok & Hr & He & Hd).
  rewrite Hs in Hs'. injection Hs' as <-.
  assert (Hs1 : find_settings (Req.target req) (db_settings db1)
                = Some (Settings.set_open false settings)).
  { rewrite Hd. cbn [db_settings].
    rewrite count_requests_app, Hr, count_requests_new.
    destruct (Z.geb_spec
                (count_requests "Pending" (Req.target req) (db_requests db) + 1)
                (Settings.maxPending settings)); [|lia].
    rewrite find_update_first by reflexivity. rewrite Hs. reflexivity. }
  unfold queue_open, post_open, Settings_updateOne_open.
  cbn [snd db_requests db_settings].
  rewrite find_update_first by reflexivity. rewrite Hs1.
  repeat split.
Qed.

Lemma reopen_after_full_witness :
  (Settings.maxPending Sample.bob_settings
   <= count_requests "Pending" "bob" (db_requests Sample.db_one_archived) + 1)%Z
  /\ queue_open "bob"
       (snd (post_open "bob" true
               (snd (handler (Sample.env_at (2 * Sample.day)) Sample.req_to_bob
                       Sample.db_one_archived))))
     = Some true.
Proof.
  assert (Hfull : (Settings.maxPending Sample.bob_settings
                   <= count_requests "Pending" "bob"
                        (db_requests Sample.db_one_archived) + 1)%Z)
    by discriminate.
  assert (H : handler (Sample.env_at (2 * Sample.day)) Sample.req_to_bob
                Sample.db_one_archived
              = (Some (SendMap
                         (RequestObject
                            (new_Request
                               (make_map Sample.hard Sample.mapData
                                  Sample.req_to_bob)
                               Sample.req_to_bob (2 * Sample.day))) []),
                 snd (handler (Sample.env_at (2 * Sample.day))
                        Sample.req_to_bob Sample.db_one_archived)))
    by (vm_compute; reflexivity).
  refine (conj Hfull _).
  exact (proj1 (proj2 (reopen_after_full (Sample.env_at (2 * Sample.day))
                         Sample.req_to_bob Sample.db_one_archived _ _ _
                         Sample.bob_settings H eq_refl Hfull))).
Defined.

(** X19. Posting settings that do not name an owner rewrites the caller's
    own settings and nothing else: each of the fields modderType, modes,
    open, cooldown and maxPending takes the posted value when the posted
    object carries it and keeps the stored one when it does not, and the
    requests and the settings of every other owner are as they were. *)
Theorem settings_only_own user p db :
  Patch.owner p = None ->
  db_requests (snd (post_settings user p db)) = db_requests db
  /\ find_settings (User.username user)
       (db_settings (snd (post_settings user p db)))
     = option_map (apply_patch p)
         (find_settings (User.username user) (db_settings db))
  /\ (forall other, User.username user <> other ->
        find_settings other (db_settings (snd (post_settings user p db)))
        = find_settings other (db_settings db))
  /\ (forall s,
        Settings.owner (apply_patch p s) = Settings.owner s
        /\ Settings.modderType (apply_patch p s)
           = match Patch.modderType p with
             | Some v => v
             | None => Settings.modderType s
             end
        /\ Settings.modes (apply_patch p s)
           = match Patch.modes p with
             | Some v => v
             | None => Settings.modes s
             end
        /\ Settings.open (apply_patch p s)
           = match Patch.open p with
             | Some v => v
             | None => Settings.open s
             end
        /\ Settings.cooldown (apply_patch p s)
           = match Patch.cooldown p with
             | Some v => v
             | None => Settings.cooldown s
             end
        /\ Settings.maxPending (apply_patch p s)
           = match Patch.maxPending p with
             | Some v => v
             | None => Settings.maxPending s
             end).
Proof.
  intros Ho.
  assert (Hf : forall s, Settings.owner (apply_patch p s) = Settings.owner s)
    by (intros s; unfold apply_patch; rewrite Ho; reflexivity).
  unfold post_settings. cbn [snd db_requests db_settings].
  split; [reflexivity|]. split; [apply find_update_first, Hf|].
  split; [intros other Hne; apply find_update_first_other; auto|].
  intros s. split; [apply Hf|].
  unfold apply_patch, or_else.
  cbn [Settings.modderType Settings.modes Settings.open Settings.cooldown
       Settings.maxPending].
  repeat split.
Qed.

Lemma settings_only_own_witness :
  Patch.owner (Patch.mk None None None None (Some (3 # 1)) None) = None
  /\ option_map Settings.cooldown
       (find_settings "bob"
          (db_settings
             (snd (post_settings Sample.bob
                     (Patch.mk None None None None (Some (3 # 1)) None)
                     Sample.db_empty))))
     = Some (3 # 1).
Proof.
  refine (conj eq_refl _).
  exact (f_equal (option_map Settings.cooldown)
           (proj1 (proj2 (settings_only_own Sample.bob
                            (Patch.mk None None None None (Some (3 # 1)) None)
                            Sample.db_empty eq_refl)))).
Defined.
